(** * Orchestrator: the rule-based classification engine

    A shallow embedding of [utils/detectionRules.ts] (the category table,
    the project detectors, the folder rules, the name patterns, the
    extension table and [detectFileCategory]) and of [enrichWithSizes]
    from [App.tsx], together with the properties of the specification
    that concern them; then of the search filter and of the scan for
    moves of [App.tsx], and of the earlier scan with its rules in line,
    with what the code shows of them.

    Modelling conventions.
    - A JavaScript string is a [string]: a sequence of code units in the
      range 0..255 (the Latin-1 part of UTF-16).  [toLowerCase] and the
      canonicalisation of the [/i] flag are the ones ECMAScript gives on
      that range.
    - A JavaScript number that holds a count of days or of kilobytes is
      an integer [Z].  Comparisons of integers are exact on doubles; the
      decimal rendering and the sums are those of the code as long as
      the numbers stay safe integers (at most 2^53 - 1 in absolute
      value), and the properties that rest on a rendering or on a sum
      carry that bound ([MAX_SAFE_INTEGER]).
    - An optional field ([children?], [age?], [size?]) is an [option];
      [None] is the absent field ([undefined]). *)

From Stdlib Require Import ZArith List Bool Ascii String Lia.
From Stdlib Require Import Numbers.DecimalString.
Import ListNotations.

Local Open Scope string_scope.
Local Open Scope Z_scope.

(** ** Strings *)

Module JsString.

Definition code (c : ascii) : N := N_of_ascii c.

(** [String.prototype.toLowerCase] on one code unit below 256:
    A-Z and the accented capitals U+00C0..U+00DE (U+00D7, the
    multiplication sign, apart) move up by 32. *)
Definition lowerChar (c : ascii) : ascii :=
  let n := code c in
  if ((65 <=? n) && (n <=? 90))%N then ascii_of_N (n + 32)
  else if ((192 <=? n) && (n <=? 222) && negb (n =? 215))%N
       then ascii_of_N (n + 32)
  else c.

Fixpoint toLowerCase (s : string) : string :=
  match s with
  | EmptyString => EmptyString
  | String c s' => String (lowerChar c) (toLowerCase s')
  end.

(** [Canonicalize] of a regular expression with the [i] flag and
    without the [u] flag: the upper-case form of the code unit when
    that is a single code unit and does not take a non-ASCII unit into
    ASCII.  On 0..255: a-z and U+00E0..U+00FE (U+00F7, the division
    sign, apart) move down by 32.  The two units whose upper-case form
    lies beyond 255 (U+00B5 and U+00FF) are the only units below 256
    with that form, so keeping them in place preserves every equality
    test between canonical forms. *)
Definition canonicalize (c : ascii) : ascii :=
  let n := code c in
  if ((97 <=? n) && (n <=? 122))%N then ascii_of_N (n - 32)
  else if ((224 <=? n) && (n <=? 254) && negb (n =? 247))%N
       then ascii_of_N (n - 32)
  else c.

Definition eqChar (a b : ascii) : bool := Ascii.eqb a b.
Definition eqCharI (a b : ascii) : bool :=
  Ascii.eqb (canonicalize a) (canonicalize b).

(** Does [p] match at the start of [s], unit by unit, up to [eqc]? *)
Fixpoint matchHere (eqc : ascii -> ascii -> bool) (p s : string) : bool :=
  match p, s with
  | EmptyString, _ => true
  | String _ _, EmptyString => false
  | String a p', String b s' => eqc a b && matchHere eqc p' s'
  end.

(** Does [p] match at some position of [s]? *)
Fixpoint search (eqc : ascii -> ascii -> bool) (p s : string) : bool :=
  matchHere eqc p s ||
  match s with
  | EmptyString => false
  | String _ s' => search eqc p s'
  end.

(** [s.includes(p)] *)
Definition includes (s p : string) : bool := search eqChar p s.

(** [s.startsWith(p)] *)
Definition startsWith (s p : string) : bool := matchHere eqChar p s.

(** [s.lastIndexOf(c)] for a one-unit needle: the scan keeps the last
    index at which [c] was seen, -1 when there is none. *)
Fixpoint lastIndexOfFrom (c : ascii) (s : string) (i last : Z) : Z :=
  match s with
  | EmptyString => last
  | String a s' =>
      lastIndexOfFrom c s' (i + 1) (if Ascii.eqb a c then i else last)
  end.

Definition lastIndexOf (s : string) (c : ascii) : Z :=
  lastIndexOfFrom c s 0 (-1).

(** [s.substring(start)]: a negative start counts as 0. *)
Definition substring (s : string) (start : Z) : string :=
  let k := Z.to_nat start in
  String.substring k (String.length s - k) s.

(** [String(n)] of an integer number, as a template literal renders it:
    the decimal digits, after a minus sign when negative.  This is the
    rendering of the code for the safe integers, which a double holds
    exactly; beyond them the code prints the shortest digits that give
    the double back, and from 10^21 on an exponent form, which this
    function does not follow. *)
Definition ofNumber (n : Z) : string :=
  NilZero.string_of_int (Z.to_int n).

End JsString.

(** A regular expression literal [/word/i] whose source is a plain word:
    only the word is kept, the flag is part of [test]. *)
Record RegExpI := { source : string }.

(** [re.test(s)] for such an expression: an unanchored search. *)
Definition test (re : RegExpI) (s : string) : bool :=
  JsString.search JsString.eqCharI (source re) s.

(** ** The data model ([types.ts]) *)

Inductive NodeType := file | folder.

Definition NodeType_eqb (a b : NodeType) : bool :=
  match a, b with
  | file, file | folder, folder => true
  | _, _ => false
  end.

(** The tree is nested through [option] and [list]; its induction
    principle is stated by hand below ([FileNode_ind']). *)
Unset Elimination Schemes.
Inductive FileNode :=
  mkFileNode (name : string) (type : NodeType)
             (children : option (list FileNode))
             (age : option Z) (category : option string)
             (size : option Z).
Set Elimination Schemes.

Definition name (n : FileNode) : string :=
  let (x, _, _, _, _, _) := n in x.
Definition type (n : FileNode) : NodeType :=
  let (_, x, _, _, _, _) := n in x.
Definition children (n : FileNode) : option (list FileNode) :=
  let (_, _, x, _, _, _) := n in x.
Definition age (n : FileNode) : option Z :=
  let (_, _, _, x, _, _) := n in x.
Definition category (n : FileNode) : option string :=
  let (_, _, _, _, x, _) := n in x.
Definition size (n : FileNode) : option Z :=
  let (_, _, _, _, _, x) := n in x.

(** [{ ...n, age: a }] *)
Definition withAge (a : option Z) (n : FileNode) : FileNode :=
  mkFileNode (name n) (type n) (children n) a (category n) (size n).

(** [{ ...n, children: cs }] *)
Definition withChildren (cs : option (list FileNode)) (n : FileNode)
  : FileNode :=
  mkFileNode (name n) (type n) cs (age n) (category n) (size n).

(** [x ?? 0] on an optional number. *)
Definition orElse0 (x : option Z) : Z :=
  match x with Some v => v | None => 0 end.

(** [x || 0] on an optional number: an absent or zero number gives 0. *)
Definition orFalsy0 (x : option Z) : Z :=
  match x with
  | Some v => if v =? 0 then 0 else v
  | None => 0
  end.

(** [cs?.some(p) ?? false] *)
Definition someOpt (p : FileNode -> bool) (cs : option (list FileNode))
  : bool :=
  match cs with
  | Some l => existsb p l
  | None => false
  end.

(** [cs?.length ?? 0] *)
Definition lengthOpt (cs : option (list FileNode)) : Z :=
  match cs with
  | Some l => Z.of_nat (List.length l)
  | None => 0
  end.

(** ** The category table *)

Inductive Category :=
  | PROJECT_GIT | PROJECT_NODE | PROJECT_PYTHON | PROJECT_UNITY
  | PROJECT_RUST | PROJECT_GO | PROJECT_JAVA
  | DOC_PDF | DOC_OFFICE | DOC_TEXT
  | MEDIA_VIDEO | MEDIA_AUDIO | MEDIA_IMAGE
  | ARCHIVE_COMPRESSED
  | SDK_DOTNET | CONFIG_DOTFILE | TOOL_EXECUTABLE
  | PRIVATE_FINANCIAL | PRIVATE_LEGAL | PRIVATE_MEDICAL | PRIVATE_IDENTITY
  | VACUUM_EMPTY | VACUUM_TEMP | ARCHIVE_STALE.

Record CategoryConfig := { target : string; priority : Z }.

Definition FILE_CATEGORIES (c : Category) : CategoryConfig :=
  match c with
  | PROJECT_GIT => {| target := "01_Build/Projects"; priority := 10 |}
  | PROJECT_NODE => {| target := "01_Build/Web"; priority := 10 |}
  | PROJECT_PYTHON => {| target := "01_Build/Data"; priority := 10 |}
  | PROJECT_UNITY => {| target := "01_Build/Interactive"; priority := 10 |}
  | PROJECT_RUST => {| target := "01_Build/Systems"; priority := 10 |}
  | PROJECT_GO => {| target := "01_Build/Systems"; priority := 10 |}
  | PROJECT_JAVA => {| target := "01_Build/Enterprise"; priority := 10 |}
  | DOC_PDF => {| target := "03_Library/Documents"; priority := 5 |}
  | DOC_OFFICE => {| target := "03_Library/Documents"; priority := 5 |}
  | DOC_TEXT => {| target := "03_Library/Notes"; priority := 5 |}
  | MEDIA_VIDEO => {| target := "05_Stage/Media/Videos"; priority := 5 |}
  | MEDIA_AUDIO => {| target := "05_Stage/Media/Audio"; priority := 5 |}
  | MEDIA_IMAGE => {| target := "05_Stage/Media/Images"; priority := 5 |}
  | ARCHIVE_COMPRESSED => {| target := "00_Inbox/Archives"; priority := 5 |}
  | SDK_DOTNET => {| target := "02_Studio/SDKs"; priority := 8 |}
  | CONFIG_DOTFILE => {| target := "02_Studio/Config"; priority := 8 |}
  | TOOL_EXECUTABLE => {| target := "02_Studio/Tools"; priority := 7 |}
  | PRIVATE_FINANCIAL => {| target := "04_Private/Financial"; priority := 9 |}
  | PRIVATE_LEGAL => {| target := "04_Private/Legal"; priority := 9 |}
  | PRIVATE_MEDICAL => {| target := "04_Private/Medical"; priority := 9 |}
  | PRIVATE_IDENTITY => {| target := "04_Private/Identity"; priority := 9 |}
  | VACUUM_EMPTY => {| target := "VACUUM"; priority := 3 |}
  | VACUUM_TEMP => {| target := "VACUUM"; priority := 6 |}
  | ARCHIVE_STALE => {| target := "99_Archives/2024"; priority := 4 |}
  end.

(** [DetectionResult extends CategoryConfig]. *)
Module DetectionResult.
Record t := mk
  { category : Category; target : string; priority : Z; reason : string }.
End DetectionResult.

(** [{ category: c, ...FILE_CATEGORIES[c], reason: r }] *)
Definition result (c : Category) (r : string) : DetectionResult.t :=
  DetectionResult.mk c (target (FILE_CATEGORIES c))
                     (priority (FILE_CATEGORIES c)) r.

(** ** Project detection rules *)

Module ProjectDetector.
Record t := mk
  { name : string;
    check : FileNode -> option (list FileNode) -> bool;
    category : Category;
    reason : string }.
End ProjectDetector.

Definition isFolder (item : FileNode) : bool :=
  NodeType_eqb (type item) folder.

Definition isFile (item : FileNode) : bool :=
  NodeType_eqb (type item) file.

(** A detector whose marker is one child name. *)
Definition hasChildNamed (n : string) (cs : option (list FileNode)) : bool :=
  someOpt (fun child => String.eqb (name child) n) cs.

Definition checkGit (item : FileNode) (cs : option (list FileNode)) : bool :=
  if negb (isFolder item) then false
  else hasChildNamed ".git" cs.

Definition checkNode (item : FileNode) (cs : option (list FileNode)) : bool :=
  if negb (isFolder item) then false
  else hasChildNamed "package.json" cs.

Definition pythonIndicators : list string :=
  ["requirements.txt"; "setup.py"; "pyproject.toml"; "Pipfile"].

Definition checkPython (item : FileNode) (cs : option (list FileNode))
  : bool :=
  if negb (isFolder item) then false
  else someOpt (fun child =>
                  existsb (String.eqb (name child)) pythonIndicators) cs.

Definition checkUnity (item : FileNode) (cs : option (list FileNode))
  : bool :=
  if negb (isFolder item) then false
  else
    let hasAssets :=
      someOpt (fun child =>
                 String.eqb (name child) "Assets" && isFolder child) cs in
    let hasProjectSettings :=
      someOpt (fun child => String.eqb (name child) "ProjectSettings") cs in
    hasAssets && hasProjectSettings.

Definition checkRust (item : FileNode) (cs : option (list FileNode)) : bool :=
  if negb (isFolder item) then false
  else hasChildNamed "Cargo.toml" cs.

Definition checkGo (item : FileNode) (cs : option (list FileNode)) : bool :=
  if negb (isFolder item) then false
  else hasChildNamed "go.mod" cs.

Definition checkJava (item : FileNode) (cs : option (list FileNode)) : bool :=
  if negb (isFolder item) then false
  else someOpt (fun child =>
                  String.eqb (name child) "pom.xml"
                  || String.eqb (name child) "build.gradle") cs.

Definition unityDetector : ProjectDetector.t :=
  ProjectDetector.mk "Unity Project" checkUnity PROJECT_UNITY "Unity Project".

Definition PROJECT_DETECTORS : list ProjectDetector.t :=
  [ ProjectDetector.mk "Git Repository" checkGit PROJECT_GIT "Git Repository";
    ProjectDetector.mk "Node.js Project" checkNode PROJECT_NODE
                       "Node.js Project";
    ProjectDetector.mk "Python Project" checkPython PROJECT_PYTHON
                       "Python Project";
    unityDetector;
    ProjectDetector.mk "Rust Project" checkRust PROJECT_RUST "Rust Project";
    ProjectDetector.mk "Go Project" checkGo PROJECT_GO "Go Project";
    ProjectDetector.mk "Java/Maven Project" checkJava PROJECT_JAVA
                       "Java Project" ].

(** ** File extension rules *)

Module ExtensionRule.
Record t := mk { category : Category; reason : string }.
End ExtensionRule.

(** The object literal, as the list of its own properties.  Every key
    starts with a dot, and so does every extension that is looked up, so
    no inherited property of the object is ever reached. *)
Definition EXTENSION_RULES : list (string * ExtensionRule.t) :=
  [ (".pdf", ExtensionRule.mk DOC_PDF "PDF Document");
    (".docx", ExtensionRule.mk DOC_OFFICE "Word Document");
    (".doc", ExtensionRule.mk DOC_OFFICE "Word Document");
    (".xlsx", ExtensionRule.mk DOC_OFFICE "Excel Spreadsheet");
    (".xls", ExtensionRule.mk DOC_OFFICE "Excel Spreadsheet");
    (".pptx", ExtensionRule.mk DOC_OFFICE "PowerPoint");
    (".txt", ExtensionRule.mk DOC_TEXT "Text File");
    (".md", ExtensionRule.mk DOC_TEXT "Markdown");
    (".mp4", ExtensionRule.mk MEDIA_VIDEO "Video File");
    (".avi", ExtensionRule.mk MEDIA_VIDEO "Video File");
    (".mkv", ExtensionRule.mk MEDIA_VIDEO "Video File");
    (".mov", ExtensionRule.mk MEDIA_VIDEO "Video File");
    (".wmv", ExtensionRule.mk MEDIA_VIDEO "Video File");
    (".mp3", ExtensionRule.mk MEDIA_AUDIO "Audio File");
    (".wav", ExtensionRule.mk MEDIA_AUDIO "Audio File");
    (".flac", ExtensionRule.mk MEDIA_AUDIO "Audio File");
    (".m4a", ExtensionRule.mk MEDIA_AUDIO "Audio File");
    (".ogg", ExtensionRule.mk MEDIA_AUDIO "Audio File");
    (".jpg", ExtensionRule.mk MEDIA_IMAGE "Image File");
    (".jpeg", ExtensionRule.mk MEDIA_IMAGE "Image File");
    (".png", ExtensionRule.mk MEDIA_IMAGE "Image File");
    (".gif", ExtensionRule.mk MEDIA_IMAGE "Image File");
    (".bmp", ExtensionRule.mk MEDIA_IMAGE "Image File");
    (".svg", ExtensionRule.mk MEDIA_IMAGE "Vector Image");
    (".webp", ExtensionRule.mk MEDIA_IMAGE "Image File");
    (".zip", ExtensionRule.mk ARCHIVE_COMPRESSED "Archive");
    (".rar", ExtensionRule.mk ARCHIVE_COMPRESSED "Archive");
    (".7z", ExtensionRule.mk ARCHIVE_COMPRESSED "Archive");
    (".tar", ExtensionRule.mk ARCHIVE_COMPRESSED "Archive");
    (".gz", ExtensionRule.mk ARCHIVE_COMPRESSED "Archive");
    (".exe", ExtensionRule.mk TOOL_EXECUTABLE "Executable");
    (".msi", ExtensionRule.mk TOOL_EXECUTABLE "Installer");
    (".app", ExtensionRule.mk TOOL_EXECUTABLE "Application");
    (".dmg", ExtensionRule.mk TOOL_EXECUTABLE "Disk Image") ].

(** [table[key]]: the property named [key], if the object has it. *)
Fixpoint getProperty {A : Type} (table : list (string * A)) (key : string)
  : option A :=
  match table with
  | [] => None
  | (k, v) :: rest => if String.eqb k key then Some v else getProperty rest key
  end.

(** ** Name-based pattern rules *)

Module NamePattern.
Record t := mk
  { pattern : RegExpI; category : Category; reason : string }.
End NamePattern.

Definition re (w : string) : RegExpI := {| source := w |}.

Definition NAME_PATTERNS : list NamePattern.t :=
  [ NamePattern.mk (re "invoice") PRIVATE_FINANCIAL "Financial Document";
    NamePattern.mk (re "receipt") PRIVATE_FINANCIAL "Financial Document";
    NamePattern.mk (re "tax") PRIVATE_FINANCIAL "Tax Document";
    NamePattern.mk (re "nda") PRIVATE_LEGAL "Legal Document";
    NamePattern.mk (re "contract") PRIVATE_LEGAL "Legal Document";
    NamePattern.mk (re "blood") PRIVATE_MEDICAL "Medical Record";
    NamePattern.mk (re "medical") PRIVATE_MEDICAL "Medical Record";
    NamePattern.mk (re "passport") PRIVATE_IDENTITY "ID Document";
    NamePattern.mk (re "screenshot") MEDIA_IMAGE "Screenshot";
    NamePattern.mk (re "export") DOC_OFFICE "Export";
    NamePattern.mk (re "cheatsheet") DOC_TEXT "Reference";
    NamePattern.mk (re "book") DOC_PDF "Book" ].

(** ** Folder-specific rules *)

(** The [reason] of a folder rule is a string or a function of the node. *)
Inductive Reason :=
  | StaticReason (s : string)
  | ComputedReason (f : FileNode -> string).

Module FolderRule.
Record t := mk
  { check : FileNode -> bool; category : Category; reason : Reason }.
End FolderRule.

(** [`${item.age}`]: an absent age prints as [undefined]. *)
Definition ageText (a : option Z) : string :=
  match a with
  | Some n => JsString.ofNumber n
  | None => "undefined"
  end.

Definition checkEmpty (item : FileNode) : bool :=
  isFolder item && (lengthOpt (children item) =? 0).

Definition checkOldTemp (item : FileNode) : bool :=
  isFolder item && JsString.includes (name item) "temp"
  && (orElse0 (age item) >? 30).

Definition checkStale (item : FileNode) : bool :=
  isFolder item && (orElse0 (age item) >? 365)
  && negb (JsString.startsWith (name item) ".").

Definition reasonStale (item : FileNode) : string :=
  "Inactive (" ++ ageText (age item) ++ "d)".

Definition checkDotnet (item : FileNode) : bool :=
  String.eqb (name item) ".dotnet".

Definition checkDotFolder (item : FileNode) : bool :=
  JsString.startsWith (name item) "." && isFolder item.

Definition FOLDER_RULES : list FolderRule.t :=
  [ FolderRule.mk checkEmpty VACUUM_EMPTY (StaticReason "Empty Folder");
    FolderRule.mk checkOldTemp VACUUM_TEMP (StaticReason "Old Temp Folder");
    FolderRule.mk checkStale ARCHIVE_STALE (ComputedReason reasonStale);
    FolderRule.mk checkDotnet SDK_DOTNET (StaticReason ".NET SDK");
    FolderRule.mk checkDotFolder CONFIG_DOTFILE
                  (StaticReason "Config Folder") ].

(** [typeof rule.reason === 'function' ? rule.reason(item) : rule.reason] *)
Definition reasonOf (r : Reason) (item : FileNode) : string :=
  match r with
  | StaticReason s => s
  | ComputedReason f => f item
  end.

(** ** The main detection function *)

(** Priority 1: the first project detector whose check holds. *)
Definition projectStage (item : FileNode) (cs : option (list FileNode))
  : option DetectionResult.t :=
  match find (fun d => ProjectDetector.check d item cs) PROJECT_DETECTORS with
  | Some d =>
      Some (result (ProjectDetector.category d) (ProjectDetector.reason d))
  | None => None
  end.

(** Priority 2: for a folder, the first folder rule whose check holds. *)
Definition folderStage (item : FileNode) : option DetectionResult.t :=
  if isFolder item then
    match find (fun r => FolderRule.check r item) FOLDER_RULES with
    | Some r =>
        Some (result (FolderRule.category r)
                     (reasonOf (FolderRule.reason r) item))
    | None => None
    end
  else None.

(** Priority 3: the first name pattern that the name passes. *)
Definition nameStage (item : FileNode) : option DetectionResult.t :=
  match find (fun p => test (NamePattern.pattern p) (name item))
             NAME_PATTERNS with
  | Some p => Some (result (NamePattern.category p) (NamePattern.reason p))
  | None => None
  end.

(** Priority 4: for a file, the rule of its lowercased extension. *)
Definition extensionStage (item : FileNode) : option DetectionResult.t :=
  if isFile item then
    let lastDotIndex := JsString.lastIndexOf (name item) "."%char in
    if negb (lastDotIndex =? -1) then
      let ext :=
        JsString.toLowerCase (JsString.substring (name item) lastDotIndex) in
      match getProperty EXTENSION_RULES ext with
      | Some rule =>
          Some (result (ExtensionRule.category rule)
                       (ExtensionRule.reason rule))
      | None => None
      end
    else None
  else None.

(** [detectFileCategory(item, children = null)]: each stage returns from
    the function as soon as one of its rules holds. *)
Definition detectFileCategory (item : FileNode)
           (cs : option (list FileNode)) : option DetectionResult.t :=
  match projectStage item cs with
  | Some r => Some r
  | None =>
      match folderStage item with
      | Some r => Some r
      | None =>
          match nameStage item with
          | Some r => Some r
          | None => extensionStage item
          end
      end
  end.

(** ** Folder sizes ([App.tsx]) *)

(** The sums are taken in [Z]; they are the sums of the code, which adds
    doubles, as long as every partial sum is a safe integer. *)

Fixpoint traverse (currentNode : FileNode) : FileNode :=
  match currentNode with
  | mkFileNode n t ch a c sz =>
      let enrichedChildren :=
        match ch with
        | Some l => List.map traverse l
        | None => []
        end in
      let size0 := orFalsy0 sz in
      let size1 :=
        match t with
        | folder =>
            fold_left (fun acc child => acc + orFalsy0 (size child))
                      enrichedChildren 0
        | file => size0
        end in
      mkFileNode n t (Some enrichedChildren) a c (Some size1)
  end.

Definition enrichWithSizes (node : FileNode) : FileNode := traverse node.

(** * The vocabulary of the properties *)

Import JsString.

(** [P] holds of every child, when there are children. *)
Definition ForallChildren (P : FileNode -> Prop)
           (cs : option (list FileNode)) : Prop :=
  match cs with
  | Some l => Forall P l
  | None => True
  end.

(** Induction on a tree: a property that holds of a node as soon as it
    holds of its children holds of every node. *)
Section FileNodeInduction.
Variable P : FileNode -> Prop.
Hypothesis step :
  forall n t ch a c sz,
    ForallChildren P ch -> P (mkFileNode n t ch a c sz).

Fixpoint FileNode_ind' (x : FileNode) : P x :=
  match x with
  | mkFileNode n t ch a c sz =>
      step n t ch a c sz
        (match ch as o return ForallChildren P o with
         | Some l =>
             (fix all (l : list FileNode) : Forall P l :=
                match l with
                | [] => Forall_nil P
                | y :: l' => Forall_cons y (FileNode_ind' y) (all l')
                end) l
         | None => I
         end)
  end.
End FileNodeInduction.

(** [p] and [m] have the same length and agree unit by unit up to [eqc]. *)
Inductive Pointwise (eqc : ascii -> ascii -> bool)
  : string -> string -> Prop :=
| pw_nil : Pointwise eqc "" ""
| pw_cons a b p m :
    eqc a b = true -> Pointwise eqc p m ->
    Pointwise eqc (String a p) (String b m).

(** [w] occurs in [s]. *)
Definition Contains (w s : string) : Prop :=
  exists pre suf, s = pre ++ w ++ suf.

(** [w] occurs in [s] when the case of letters is ignored. *)
Definition ContainsI (w s : string) : Prop :=
  exists pre mid suf,
    s = pre ++ mid ++ suf /\ toLowerCase mid = toLowerCase w.

(** [s] begins with [w]. *)
Definition StartsWith (w s : string) : Prop :=
  exists suf, s = w ++ suf.

(** The unit [c] occurs in [s]. *)
Definition Occurs (c : ascii) (s : string) : Prop :=
  exists pre suf, s = pre ++ String c suf.

(** No project detector matches [item] with the children [cs]. *)
Definition NoProjectMatch (item : FileNode) (cs : option (list FileNode))
  : Prop :=
  forall d, In d PROJECT_DETECTORS -> ProjectDetector.check d item cs = false.

(** No folder rule holds of [item]. *)
Definition NoFolderRule (item : FileNode) : Prop :=
  forall r, In r FOLDER_RULES -> FolderRule.check r item = false.

(** The name of [item] passes no name pattern. *)
Definition NoNamePattern (item : FileNode) : Prop :=
  forall p, In p NAME_PATTERNS ->
            test (NamePattern.pattern p) (name item) = false.

(** [Number.MAX_SAFE_INTEGER]: up to it, in absolute value, a double
    holds every integer exactly. *)
Definition MAX_SAFE_INTEGER : Z := 2 ^ 53 - 1.

(** The number of children of the node itself, none when absent. *)
Definition childCount (item : FileNode) : Z := lengthOpt (children item).

(** Some child in [cs] satisfies [P]. *)
Definition HasChild (P : FileNode -> Prop) (cs : option (list FileNode))
  : Prop :=
  exists l c, cs = Some l /\ In c l /\ P c.

(** [{ name: n, type: 'file' }] *)
Definition fileNamed (n : string) : FileNode :=
  mkFileNode n file None None None None.

(** [{ name: n, type: 'folder', children: cs, age: a }] *)
Definition folderOf (n : string) (cs : option (list FileNode))
           (a : option Z) : FileNode :=
  mkFileNode n folder cs a None None.

(** C4, as stated: the Unity detector would match exactly the folders
    with a folder child [Assets] and a folder child [ProjectSettings]. *)
Definition UnityClaimAsStated (item : FileNode)
           (cs : option (list FileNode)) : Prop :=
  ProjectDetector.check unityDetector item cs = true <->
  type item = folder
  /\ HasChild (fun c => name c = "Assets" /\ type c = folder) cs
  /\ HasChild (fun c => name c = "ProjectSettings" /\ type c = folder) cs.

(** A folder of [a] days with one child. *)
Definition staleFolder (a : Z) : FileNode :=
  folderOf "OldProj" (Some [fileNamed "notes"]) (Some a).

(** C6, as stated: every folder named [my-temp-build] that no project
    detector matches would be [VACUUM_TEMP] at 45 days and unclassified
    at 10 days. *)
Definition TempBuildClaimAsStated (item : FileNode)
           (cs : option (list FileNode)) : Prop :=
  name item = "my-temp-build" ->
  type item = folder ->
  NoProjectMatch item cs ->
  (age item = Some 45 ->
   detectFileCategory item cs
   = Some (DetectionResult.mk VACUUM_TEMP "VACUUM" 6 "Old Temp Folder"))
  /\ (age item = Some 10 -> detectFileCategory item cs = None).

(** What is left of the folder stage when the age is at most 30 days:
    the two rules that read the age are out. *)
Definition folderStageYoung (item : FileNode) : option DetectionResult.t :=
  if isFolder item then
    if checkEmpty item then Some (result VACUUM_EMPTY "Empty Folder")
    else if checkDotnet item then Some (result SDK_DOTNET ".NET SDK")
    else if checkDotFolder item
         then Some (result CONFIG_DOTFILE "Config Folder")
    else None
  else None.

(** The rule of an extension, as a result. *)
Definition extensionResult (ext : string) : option DetectionResult.t :=
  match getProperty EXTENSION_RULES ext with
  | Some rule =>
      Some (result (ExtensionRule.category rule) (ExtensionRule.reason rule))
  | None => None
  end.

(** * The rest of the application logic ([App.tsx]) *)

(** ** The search filter *)

(** [.filter(child => child !== null)] *)
Fixpoint filterNotNull {A : Type} (l : list (option A)) : list A :=
  match l with
  | [] => []
  | Some x :: l' => x :: filterNotNull l'
  | None :: l' => filterNotNull l'
  end.

(** [node.name.toLowerCase().includes(query.toLowerCase())] *)
Definition nameMatches (query : string) (node : FileNode) : bool :=
  includes (toLowerCase (name node)) (toLowerCase query).

Fixpoint filterFileNode (node : FileNode) (query : string)
  : option FileNode :=
  match node with
  | mkFileNode n t ch a c sz =>
      if includes (toLowerCase n) (toLowerCase query) then Some node
      else
        match ch with
        | Some l =>
            let filteredChildren :=
              filterNotNull
                (List.map (fun child => filterFileNode child query) l) in
            if Z.of_nat (List.length filteredChildren) >? 0
            then Some (mkFileNode n t (Some filteredChildren) a c sz)
            else None
        | None => None
        end
  end.

(** ** The scan for moves *)

Module MoveAction.
Record t := mk { item : FileNode; target : string; reason : string }.
End MoveAction.

(** The body of the [forEach] of [scanNodes]: the moves pushed for one
    item and for what is scanned below it, in the order of the pushes. *)
Fixpoint scanItem (parentName : string) (item : FileNode)
  : list MoveAction.t :=
  match item with
  | mkFileNode n t ch a c sz =>
      if String.eqb n "_UNSORTED_DESKTOP" then
        MoveAction.mk item "VACUUM" "Cleanup"
        :: match ch with
           | Some l => List.flat_map (scanItem n) l
           | None => []
           end
      else
        let detection := detectFileCategory item ch in
        let pushed :=
          match detection with
          | Some d =>
              [MoveAction.mk item (DetectionResult.target d)
                             (DetectionResult.reason d)]
          | None =>
              if String.eqb parentName "_UNSORTED_DESKTOP"
                 && NodeType_eqb t file
              then [MoveAction.mk item "00_Inbox" "Inbox Item"]
              else []
          end in
        let notVacuum :=
          match detection with
          | Some d => negb (String.eqb (DetectionResult.target d) "VACUUM")
          | None => true
          end in
        pushed
        ++ match ch with
           | Some l =>
               if NodeType_eqb t folder
                  && (Z.of_nat (List.length l) >? 0) && notVacuum
               then List.flat_map (scanItem n) l
               else []
           | None => []
           end
  end.

(** [scanNodes(nodes, parentName = '')] *)
Definition scanNodes (nodes : list FileNode) (parentName : string)
  : list MoveAction.t :=
  List.flat_map (scanItem parentName) nodes.

(** The moves that [runMoveDetection(root)] hands to [setProposedMoves]. *)
Definition runMoveDetection (root : FileNode) : list MoveAction.t :=
  match children root with
  | Some l => scanNodes l ""
  | None => []
  end.

(** ** The earlier scan, with its rules in line (the other [App.tsx]) *)

Module Legacy.

(** [{ target, reason }] *)
Definition Move : Type := (string * string)%type.

(** The rules for a file: each [if] that holds overwrites the move of
    the ones before it. *)
Definition fileMove (n : string) : option Move :=
  let move := None in
  let move :=
    if includes n "Invoice"
    then Some ("04_Private/Financial", "Taxonomy") else move in
  let move :=
    if includes n "NDA" then Some ("04_Private/Legal", "Taxonomy") else move in
  let move :=
    if includes n "Blood"
    then Some ("04_Private/Medical", "Taxonomy") else move in
  let move :=
    if includes n "Passport"
    then Some ("04_Private/Identity", "Taxonomy") else move in
  let move :=
    if includes n "Book" then Some ("03_Library/Books", "Reference")
    else move in
  let move :=
    if includes n "Cheatsheet"
    then Some ("03_Library/Cheatsheets", "Reference") else move in
  let move :=
    if includes n "Export" || includes n "Screenshot"
    then Some ("05_Stage/Exports", "Deliverable") else move in
  move.

(** The rules for a folder whose name does not start with a dot. *)
Definition folderMove (item : FileNode) : option Move :=
  if match children item with
     | Some l => Z.of_nat (List.length l) =? 0
     | None => false
     end
  then Some ("VACUUM", "Empty Dir")
  else if includes (name item) "NextJS" then Some ("01_Build/Web", "Active")
  else if includes (name item) "Unity" then
    if orFalsy0 (age item) >? 180
    then Some ("99_Archives/2023", "Stale (" ++ ageText (age item) ++ "d)")
    else Some ("01_Build/Interactive", "Active")
  else if includes (name item) "PyTorch"
  then Some ("01_Build/Data", "Python Env")
  else None.

(** The move of an item that is not named [_UNSORTED_DESKTOP]. *)
Definition moveOf (parentName : string) (item : FileNode) : option Move :=
  if startsWith (name item) "." then
    if String.eqb (name item) ".dotnet" then Some ("02_Studio/SDKs", "SDK")
    else Some ("02_Studio/Config", "Config")
  else
    match type item with
    | folder => folderMove item
    | file =>
        match fileMove (name item) with
        | Some m => Some m
        | None =>
            if String.eqb parentName "_UNSORTED_DESKTOP"
            then Some ("00_Inbox", "Inbox Item")
            else None
        end
    end.

(** [if (move) moves.push({ item, ...move })] *)
Definition push (item : FileNode) (move : option Move) : list MoveAction.t :=
  match move with
  | Some (tg, rs) => [MoveAction.mk item tg rs]
  | None => []
  end.

(** The body of the [forEach]: the children of [_UNSORTED_DESKTOP] are
    scanned before the move of the folder itself is pushed; nothing
    else is scanned below. *)
Fixpoint scanItem (parentName : string) (item : FileNode)
  : list MoveAction.t :=
  match item with
  | mkFileNode n t ch a c sz =>
      if String.eqb n "_UNSORTED_DESKTOP" then
        match ch with
        | Some l => List.flat_map (scanItem n) l
        | None => []
        end
        ++ push item (Some ("VACUUM", "Cleanup"))
      else push item (moveOf parentName item)
  end.

Definition scanNodes (nodes : list FileNode) (parentName : string)
  : list MoveAction.t :=
  List.flat_map (scanItem parentName) nodes.

(** The moves that [runScan] collects from the tree. *)
Definition scan (root : FileNode) : list MoveAction.t :=
  match children root with
  | Some l => scanNodes l ""
  | None => []
  end.

End Legacy.

(** ** The mock tree ([constants.ts]) *)

Definition node (n : string) (t : NodeType) (ch : option (list FileNode))
           (a : option Z) (sz : option Z) : FileNode :=
  mkFileNode n t ch a None sz.

Definition INITIAL_FILE_SYSTEM : FileNode :=
  node "C:/Users/Developer" folder
    (Some
       [ node "_UNSORTED_DESKTOP" folder
           (Some [ node "random_note.txt" file None None (Some 2);
                   node "downloaded_setup.exe" file None None (Some 54000);
                   node "Final_Presentation_Export.pdf" file None None
                        (Some 4500) ])
           None (Some 58502);
         mkFileNode ".gitconfig" file None (Some 5) (Some "config") (Some 2);
         mkFileNode ".zshrc" file None (Some 5) (Some "config") (Some 4);
         node "NextJS-Dashboard" folder
           (Some [ node "package.json" file None None (Some 4);
                   node "src" folder (Some []) None (Some 120) ])
           (Some 2) None;
         node "Clean_Architecture_Book.pdf" file None (Some 4) (Some 15000);
         node "React_Patterns_Cheatsheet.md" file None (Some 20) (Some 12);
         node "PyTorch_Model_Training" folder
           (Some [ node "venv" folder (Some []) None (Some 450000);
                   node "requirements.txt" file None None (Some 1) ])
           (Some 15) None;
         node "Old_Unity_Prototype_v1" folder
           (Some [ node "Assets" folder (Some []) None (Some 2500000) ])
           (Some 400) None;
         node "Invoice_Design_Services.pdf" file None (Some 10) (Some 450);
         node "NDA_Client_X.docx" file None (Some 12) (Some 24);
         node "Blood_Work_Results.pdf" file None (Some 3) (Some 1200);
         node "Passport_Scan_2024.jpg" file None (Some 45) (Some 3500);
         node ".dotnet" folder
           (Some [ node "sdk" folder (Some []) None (Some 800000) ])
           (Some 300) None;
         node "Empty_Project" folder (Some []) (Some 100) (Some 0);
         node "App_Screenshot_v1.png" file None (Some 1) (Some 2500) ])
    None None.

(** * More vocabulary *)

(** [{ ...n, name: s }] *)
Definition withName (s : string) (n : FileNode) : FileNode :=
  mkFileNode s (type n) (children n) (age n) (category n) (size n).

(** The nodes below [n], parents before children, siblings in order. *)
Fixpoint descendants (n : FileNode) : list FileNode :=
  match n with
  | mkFileNode _ _ ch _ _ _ =>
      match ch with
      | Some l => List.flat_map (fun c => c :: descendants c) l
      | None => []
      end
  end.

(** [n] and the nodes below it. *)
Definition nodesOf (n : FileNode) : list FileNode := n :: descendants n.

(** The files that count in the size of [n]: [n] itself when it is a
    file, else the files reached from [n] through folders only. *)
Fixpoint countedFiles (n : FileNode) : list FileNode :=
  match n with
  | mkFileNode _ t ch _ _ _ =>
      match t with
      | file => [n]
      | folder =>
          match ch with
          | Some l => List.flat_map countedFiles l
          | None => []
          end
      end
  end.

(** The sum of a list of numbers. *)
Definition sumZ (l : list Z) : Z := List.fold_right Z.add 0 l.

(** [l1] is [l2] with some elements left out. *)
Inductive Subsequence {A : Type} : list A -> list A -> Prop :=
| sub_nil : Subsequence [] []
| sub_skip x l1 l2 : Subsequence l1 l2 -> Subsequence l1 (x :: l2)
| sub_keep x l1 l2 : Subsequence l1 l2 -> Subsequence (x :: l1) (x :: l2).

(** The categories that a file can be given. *)
Definition fileCategories : list Category :=
  [ DOC_PDF; DOC_OFFICE; DOC_TEXT; MEDIA_VIDEO; MEDIA_AUDIO; MEDIA_IMAGE;
    ARCHIVE_COMPRESSED; TOOL_EXECUTABLE;
    PRIVATE_FINANCIAL; PRIVATE_LEGAL; PRIVATE_MEDICAL; PRIVATE_IDENTITY ].

(** Some child in [cs] bears the name [n]. *)
Definition HasChildNamed (n : string) (cs : option (list FileNode)) : Prop :=
  HasChild (fun c => name c = n) cs.

(** Some child in [cs] bears the name of a Python project marker. *)
Definition HasPythonMarker (cs : option (list FileNode)) : Prop :=
  HasChild (fun c => In (name c) pythonIndicators) cs.

(** [cs] holds a folder named [Assets] and a child named
    [ProjectSettings]. *)
Definition HasUnityMarkers (cs : option (list FileNode)) : Prop :=
  HasChild (fun c => name c = "Assets" /\ type c = folder) cs
  /\ HasChildNamed "ProjectSettings" cs.

(** The categories of the project detectors. *)
Definition projectCategories : list Category :=
  [ PROJECT_GIT; PROJECT_NODE; PROJECT_PYTHON; PROJECT_UNITY;
    PROJECT_RUST; PROJECT_GO; PROJECT_JAVA ].

(** What the filter keeps of a node apart from its children. *)
Definition label (x : FileNode)
  : string * NodeType * option Z * option string * option Z :=
  (name x, type x, age x, category x, size x).

(** The move that the scan pushes for [item] itself under a parent
    named [parentName], if any. *)
Definition pushedFor (parentName : string) (item : FileNode)
  : list MoveAction.t :=
  if String.eqb (name item) "_UNSORTED_DESKTOP"
  then [MoveAction.mk item "VACUUM" "Cleanup"]
  else
    match detectFileCategory item (children item) with
    | Some d =>
        [MoveAction.mk item (DetectionResult.target d)
                       (DetectionResult.reason d)]
    | None =>
        if String.eqb parentName "_UNSORTED_DESKTOP" && isFile item
        then [MoveAction.mk item "00_Inbox" "Inbox Item"]
        else []
    end.

(** The children below which the scan goes on after [item]. *)
Definition scannedBelow (item : FileNode) : list FileNode :=
  match children item with
  | None => []
  | Some l =>
      if String.eqb (name item) "_UNSORTED_DESKTOP" then l
      else if isFolder item && (Z.of_nat (List.length l) >? 0)
              && match detectFileCategory item (children item) with
                 | Some d =>
                     negb (String.eqb (DetectionResult.target d) "VACUUM")
                 | None => true
                 end
           then l
           else []
  end.

(** * Properties *)

(** ** What the string operations compute *)

Lemma matchHere_spec eqc p : forall s,
  matchHere eqc p s = true <->
  exists mid suf, s = mid ++ suf /\ Pointwise eqc p mid.
Proof.
  induction p as [|a p IH]; intros s; simpl.
  - split; [intros _|reflexivity].
    exists "", s. split; [reflexivity|constructor].
  - destruct s as [|b s].
    + split; [discriminate|].
      intros (mid & suf & E & H). inversion H; subst. discriminate.
    + rewrite andb_true_iff, IH. split.
      * intros (Hab & mid & suf & E & H). subst s.
        exists (String b mid), suf. split; [reflexivity|].
        constructor; assumption.
      * intros (mid & suf & E & H). inversion H; subst.
        simpl in E. injection E as Eb Es. subst.
        split; [assumption|]. eauto.
Qed.

Lemma search_spec eqc p : forall s,
  search eqc p s = true <->
  exists pre mid suf, s = pre ++ mid ++ suf /\ Pointwise eqc p mid.
Proof.
  induction s as [|b s IH]; simpl; rewrite orb_true_iff, matchHere_spec.
  - split.
    + intros [(mid & suf & E & H)|F]; [|discriminate].
      exists "", mid, suf. auto.
    + intros (pre & mid & suf & E & H). left.
      destruct pre; [|discriminate]. simpl in E. eauto.
  - rewrite IH. split.
    + intros [(mid & suf & E & H)|(pre & mid & suf & E & H)].
      * exists "", mid, suf. auto.
      * exists (String b pre), mid, suf. subst s. auto.
    + intros (pre & mid & suf & E & H).
      destruct pre as [|c pre]; simpl in E.
      * left. eauto.
      * injection E as Ec Es. right. eauto.
Qed.

Lemma Pointwise_eqChar p m : Pointwise eqChar p m <-> m = p.
Proof.
  split.
  - induction 1 as [|a b p m Hab _ IH]; [reflexivity|].
    apply Ascii.eqb_eq in Hab. congruence.
  - intros ->. induction p; constructor; [apply Ascii.eqb_refl|assumption].
Qed.

Lemma lower_canonicalize c : lowerChar (canonicalize c) = lowerChar c.
Proof.
  destruct c as [b0 b1 b2 b3 b4 b5 b6 b7].
  destruct b0, b1, b2, b3, b4, b5, b6, b7; reflexivity.
Qed.

Lemma canonicalize_lower c : canonicalize (lowerChar c) = canonicalize c.
Proof.
  destruct c as [b0 b1 b2 b3 b4 b5 b6 b7].
  destruct b0, b1, b2, b3, b4, b5, b6, b7; reflexivity.
Qed.

(** The [/i] flag identifies exactly the units with one lower-case form. *)
Lemma eqCharI_lower a b : eqCharI a b = true <-> lowerChar b = lowerChar a.
Proof.
  unfold eqCharI. rewrite Ascii.eqb_eq. split; intros H.
  - rewrite <- (lower_canonicalize a), <- (lower_canonicalize b).
    now rewrite H.
  - rewrite <- (canonicalize_lower a), <- (canonicalize_lower b).
    now rewrite H.
Qed.

Lemma Pointwise_eqCharI p m :
  Pointwise eqCharI p m <-> toLowerCase m = toLowerCase p.
Proof.
  split.
  - induction 1 as [|a b p m Hab _ IH]; [reflexivity|].
    apply eqCharI_lower in Hab. simpl. congruence.
  - revert m. induction p as [|a p IH]; intros [|b m] E; simpl in E;
      try discriminate; [constructor|].
    injection E as Eb Em. constructor; [apply eqCharI_lower|]; auto.
Qed.

Lemma includes_spec s w : includes s w = true <-> Contains w s.
Proof.
  unfold includes, Contains. rewrite search_spec. split.
  - intros (pre & mid & suf & E & H). apply Pointwise_eqChar in H.
    subst mid. eauto.
  - intros (pre & suf & E). exists pre, w, suf.
    split; [assumption|]. now apply Pointwise_eqChar.
Qed.

Lemma startsWith_spec s w : startsWith s w = true <-> StartsWith w s.
Proof.
  unfold startsWith, StartsWith. rewrite matchHere_spec. split.
  - intros (mid & suf & E & H). apply Pointwise_eqChar in H.
    subst mid. eauto.
  - intros (suf & E). exists w, suf.
    split; [assumption|]. now apply Pointwise_eqChar.
Qed.

Lemma test_spec w s : test (re w) s = true <-> ContainsI w s.
Proof.
  unfold test, ContainsI. simpl. rewrite search_spec.
  split; intros (pre & mid & suf & E & H); exists pre, mid, suf;
    (split; [assumption|]); now apply Pointwise_eqCharI.
Qed.

Lemma includes_false s w : ~ Contains w s -> includes s w = false.
Proof.
  intros H. destruct (includes s w) eqn:E; [|reflexivity].
  apply includes_spec in E. contradiction.
Qed.

Lemma startsWith_false s w : ~ StartsWith w s -> startsWith s w = false.
Proof.
  intros H. destruct (startsWith s w) eqn:E; [|reflexivity].
  apply startsWith_spec in E. contradiction.
Qed.

Lemma test_false w s : ~ ContainsI w s -> test (re w) s = false.
Proof.
  intros H. destruct (test (re w) s) eqn:E; [|reflexivity].
  apply test_spec in E. contradiction.
Qed.

Lemma lastIndexOfFrom_absent c : forall s i last,
  ~ Occurs c s -> lastIndexOfFrom c s i last = last.
Proof.
  induction s as [|a s IH]; intros i last H; simpl; [reflexivity|].
  destruct (Ascii.eqb a c) eqn:E.
  - apply Ascii.eqb_eq in E. subst a. exfalso. apply H.
    exists "", s. reflexivity.
  - apply IH. intros (pre & suf & Es). apply H.
    exists (String a pre), suf. simpl. now rewrite Es.
Qed.

Lemma lastIndexOfFrom_split c suf : forall pre i last,
  ~ Occurs c suf ->
  lastIndexOfFrom c (pre ++ String c suf) i last
  = i + Z.of_nat (String.length pre).
Proof.
  induction pre as [|a pre IH]; intros i last H.
  - simpl. rewrite Ascii.eqb_refl, lastIndexOfFrom_absent by assumption.
    lia.
  - cbn [append lastIndexOfFrom String.length].
    rewrite IH by assumption. lia.
Qed.

Lemma lastIndexOf_absent s c : ~ Occurs c s -> lastIndexOf s c = -1.
Proof. apply lastIndexOfFrom_absent. Qed.

Lemma lastIndexOf_split pre suf c :
  ~ Occurs c suf ->
  lastIndexOf (pre ++ String c suf) c = Z.of_nat (String.length pre).
Proof.
  intros H. unfold lastIndexOf. now rewrite lastIndexOfFrom_split.
Qed.

Lemma substring_whole s : String.substring 0 (String.length s) s = s.
Proof. induction s; simpl; congruence. Qed.

Lemma substring_after pre s :
  substring (pre ++ s) (Z.of_nat (String.length pre)) = s.
Proof.
  unfold substring. rewrite Nat2Z.id.
  induction pre as [|a pre IH]; simpl.
  - rewrite Nat.sub_0_r. apply substring_whole.
  - destruct (String.length pre) eqn:E; simpl in *.
    + destruct pre; [|discriminate]. simpl in *.
      rewrite Nat.sub_0_r in *. assumption.
    + assumption.
Qed.

(** ** The stages of [detectFileCategory] *)

Lemma find_none_iff {A} (f : A -> bool) (l : list A) :
  find f l = None <-> forall x, In x l -> f x = false.
Proof.
  split; [apply find_none|].
  induction l as [|x l IH]; intros H; simpl; [reflexivity|].
  rewrite (H x) by (left; reflexivity).
  apply IH. intros y Hy. apply H. now right.
Qed.

Lemma projectStage_none item cs :
  NoProjectMatch item cs <-> projectStage item cs = None.
Proof.
  unfold NoProjectMatch, projectStage.
  rewrite <- (find_none_iff (fun d => ProjectDetector.check d item cs)).
  destruct (find _ PROJECT_DETECTORS); split; congruence.
Qed.

Lemma folderStage_none item :
  NoFolderRule item -> folderStage item = None.
Proof.
  unfold NoFolderRule, folderStage. intros H.
  apply (find_none_iff (fun r => FolderRule.check r item)) in H.
  rewrite H. now destruct (isFolder item).
Qed.

Lemma nameStage_none item : NoNamePattern item <-> nameStage item = None.
Proof.
  unfold NoNamePattern, nameStage.
  rewrite <- (find_none_iff
                (fun p => test (NamePattern.pattern p) (name item))).
  destruct (find _ NAME_PATTERNS); split; congruence.
Qed.

Lemma isFolder_true item : isFolder item = true <-> type item = folder.
Proof. unfold isFolder. destruct (type item); simpl; split; congruence. Qed.

Lemma isFile_true item : isFile item = true <-> type item = file.
Proof. unfold isFile. destruct (type item); simpl; split; congruence. Qed.

Lemma isFolder_file item : type item = file -> isFolder item = false.
Proof. unfold isFolder. now intros ->. Qed.

Lemma isFile_folder item : type item = folder -> isFile item = false.
Proof. unfold isFile. now intros ->. Qed.

(** A file passes no project detector and no folder rule. *)
Lemma file_NoProjectMatch item cs : type item = file -> NoProjectMatch item cs.
Proof.
  intros Ht d Hd. apply isFolder_file in Ht.
  simpl in Hd.
  repeat (destruct Hd as [<-|Hd]; [cbn [ProjectDetector.check unityDetector];
    unfold checkGit, checkNode, checkPython, checkUnity, checkRust, checkGo,
           checkJava; now rewrite Ht|]).
  contradiction.
Qed.

Lemma file_folderStage item : type item = file -> folderStage item = None.
Proof. intros Ht. unfold folderStage. now rewrite (isFolder_file _ Ht). Qed.

Lemma someOpt_spec p cs :
  someOpt p cs = true <-> HasChild (fun c => p c = true) cs.
Proof.
  unfold someOpt, HasChild. destruct cs as [l|].
  - rewrite existsb_exists. split.
    + intros (c & Hin & Hp). eauto.
    + intros (l' & c & E & Hin & Hp). injection E as <-. eauto.
  - split; [discriminate|]. intros (l & c & E & _). discriminate.
Qed.

(** Where each stage takes its answer from. *)
Lemma projectStage_some item cs r :
  projectStage item cs = Some r ->
  exists d, In d PROJECT_DETECTORS /\ ProjectDetector.check d item cs = true
            /\ r = result (ProjectDetector.category d)
                          (ProjectDetector.reason d).
Proof.
  unfold projectStage.
  destruct (find _ PROJECT_DETECTORS) as [d|] eqn:E; [|discriminate].
  intros [= <-]. apply find_some in E. destruct E. eauto.
Qed.

Lemma folderStage_some item r :
  folderStage item = Some r ->
  type item = folder /\
  exists rule, In rule FOLDER_RULES /\ FolderRule.check rule item = true
               /\ r = result (FolderRule.category rule)
                             (reasonOf (FolderRule.reason rule) item).
Proof.
  unfold folderStage. destruct (isFolder item) eqn:F; [|discriminate].
  destruct (find _ FOLDER_RULES) as [rule|] eqn:E; [|discriminate].
  intros [= <-]. apply find_some in E. destruct E.
  split; [now apply isFolder_true|eauto].
Qed.

Lemma nameStage_some item r :
  nameStage item = Some r ->
  exists p, In p NAME_PATTERNS
            /\ test (NamePattern.pattern p) (name item) = true
            /\ r = result (NamePattern.category p) (NamePattern.reason p).
Proof.
  unfold nameStage.
  destruct (find _ NAME_PATTERNS) as [p|] eqn:E; [|discriminate].
  intros [= <-]. apply find_some in E. destruct E. eauto.
Qed.

Lemma getProperty_In {A} (table : list (string * A)) key v :
  getProperty table key = Some v -> In (key, v) table.
Proof.
  induction table as [|[k x] table IH]; simpl; [discriminate|].
  destruct (String.eqb k key) eqn:E.
  - apply String.eqb_eq in E. intros [= <-]. left. now subst.
  - intros H. right. auto.
Qed.

Lemma extensionStage_some item r :
  extensionStage item = Some r ->
  type item = file /\
  exists ext rule, In (ext, rule) EXTENSION_RULES
                   /\ r = result (ExtensionRule.category rule)
                                 (ExtensionRule.reason rule).
Proof.
  unfold extensionStage. destruct (isFile item) eqn:F; [|discriminate].
  destruct (negb _); [|discriminate].
  destruct (getProperty _ _) as [rule|] eqn:E; [|discriminate].
  intros [= <-]. apply getProperty_In in E.
  split; [now apply isFile_true|eauto].
Qed.

(** The result is that of the first stage that answers. *)
Lemma detect_cases item cs r :
  detectFileCategory item cs = Some r ->
  projectStage item cs = Some r \/ folderStage item = Some r
  \/ nameStage item = Some r \/ extensionStage item = Some r.
Proof.
  unfold detectFileCategory.
  destruct (projectStage item cs); [auto|].
  destruct (folderStage item); [auto|].
  destruct (nameStage item); auto.
Qed.

(** Only the matching folder rule gives a cleanup-by-age category. *)
Lemma detect_category_origin item cs r :
  detectFileCategory item cs = Some r ->
  (DetectionResult.category r = VACUUM_TEMP -> checkOldTemp item = true)
  /\ (DetectionResult.category r = ARCHIVE_STALE -> checkStale item = true).
Proof.
  intros H. apply detect_cases in H. destruct H as [H|[H|[H|H]]].
  - apply projectStage_some in H. destruct H as (d & Hin & _ & ->).
    simpl in Hin.
    repeat (destruct Hin as [<-|Hin]; [split; discriminate|]).
    contradiction.
  - apply folderStage_some in H. destruct H as (_ & rule & Hin & Hc & ->).
    simpl in Hin.
    repeat (destruct Hin as [<-|Hin];
            [split; (discriminate || (intros _; exact Hc))|]).
    contradiction.
  - apply nameStage_some in H. destruct H as (p & Hin & _ & ->).
    simpl in Hin.
    repeat (destruct Hin as [<-|Hin]; [split; discriminate|]).
    contradiction.
  - apply extensionStage_some in H.
    destruct H as (_ & ext & rule & Hin & ->).
    simpl in Hin.
    repeat (destruct Hin as [[= <- <-]|Hin]; [split; discriminate|]).
    contradiction.
Qed.

(** ** Classification *)

(** C1. [detectFileCategory] is a total function of the node and of the
    optional children: on every input it gives either nothing or one
    result, whose target and priority are those the category table
    gives for its category.  An absent children collection is read as
    an empty one, both as the [children] field of the node (the
    empty-folder rule) and as the second argument (the project
    detectors). *)
Theorem C1_classify_total_absent_children_as_empty :
  forall (item : FileNode) (cs : option (list FileNode)),
    (detectFileCategory item cs = None \/
     exists r, detectFileCategory item cs = Some r /\
               r = result (DetectionResult.category r)
                          (DetectionResult.reason r))
    /\ detectFileCategory (withChildren None item) cs
       = detectFileCategory (withChildren (Some []) item) cs
    /\ detectFileCategory item None = detectFileCategory item (Some []).
Proof.
  intros item cs. split; [|split].
  - destruct (detectFileCategory item cs) as [r|] eqn:E; [right|now left].
    exists r. split; [reflexivity|].
    apply detect_cases in E. destruct E as [H|[H|[H|H]]].
    + apply projectStage_some in H. now destruct H as (d & _ & _ & ->).
    + apply folderStage_some in H. now destruct H as (_ & d & _ & _ & ->).
    + apply nameStage_some in H. now destruct H as (d & _ & _ & ->).
    + apply extensionStage_some in H.
      now destruct H as (_ & e & d & _ & ->).
  - destruct item as [n t ch a c sz]. unfold detectFileCategory.
    assert (F : folderStage (withChildren None (mkFileNode n t ch a c sz))
                = folderStage (withChildren (Some [])
                                            (mkFileNode n t ch a c sz))).
    { destruct t; reflexivity. }
    rewrite F. reflexivity.
  - unfold detectFileCategory.
    assert (P : projectStage item None = projectStage item (Some [])).
    { reflexivity. }
    rewrite P. reflexivity.
Qed.

(** C2. A folder whose own children are none (absent or empty) and that
    no project detector matches is classified by the empty-folder rule,
    whatever its name and its age. *)
Theorem C2_empty_folder_rule_first :
  forall (item : FileNode) (cs : option (list FileNode)),
    type item = folder ->
    childCount item = 0 ->
    NoProjectMatch item cs ->
    detectFileCategory item cs
    = Some (DetectionResult.mk VACUUM_EMPTY "VACUUM" 3 "Empty Folder").
Proof.
  intros item cs Ht Hn Hp. unfold detectFileCategory.
  apply projectStage_none in Hp. rewrite Hp.
  unfold folderStage, FOLDER_RULES.
  apply isFolder_true in Ht. rewrite Ht.
  cbn [find FolderRule.check]. unfold checkEmpty.
  fold (childCount item). rewrite Ht, Hn. reflexivity.
Qed.

(** The empty [.dotnet] folder and the empty folder of 400 days are
    both classified [VACUUM_EMPTY]. *)
Lemma C2_witness :
  detectFileCategory (folderOf ".dotnet" (Some []) None) (Some [])
  = Some (DetectionResult.mk VACUUM_EMPTY "VACUUM" 3 "Empty Folder")
  /\ detectFileCategory (folderOf "OldProj" (Some []) (Some 400)) (Some [])
     = Some (DetectionResult.mk VACUUM_EMPTY "VACUUM" 3 "Empty Folder").
Proof.
  split; apply C2_empty_folder_rule_first;
    try reflexivity; apply projectStage_none; reflexivity.
Defined.

(** C3. The file [Annual_Tax_Invoice_2024.pdf] is classified as
    financial with the reason of the [invoice] pattern, although its
    name also passes the [tax] pattern, which comes later in the list,
    and although the extension stage alone would make it a PDF
    document. *)
Theorem C3_invoice_before_tax_before_extension :
  forall (item : FileNode) (cs : option (list FileNode)),
    name item = "Annual_Tax_Invoice_2024.pdf" ->
    type item = file ->
    detectFileCategory item cs
    = Some (DetectionResult.mk PRIVATE_FINANCIAL "04_Private/Financial" 9
                               "Financial Document")
    /\ test (re "tax") (name item) = true
    /\ extensionStage item
       = Some (DetectionResult.mk DOC_PDF "03_Library/Documents" 5
                                  "PDF Document")
    /\ nth_error NAME_PATTERNS 0
       = Some (NamePattern.mk (re "invoice") PRIVATE_FINANCIAL
                              "Financial Document")
    /\ nth_error NAME_PATTERNS 2
       = Some (NamePattern.mk (re "tax") PRIVATE_FINANCIAL "Tax Document").
Proof.
  intros [n t ch a c sz] cs Hn Ht. simpl in Hn, Ht. subst n t.
  repeat split; vm_compute; reflexivity.
Qed.

Lemma C3_witness :
  detectFileCategory (fileNamed "Annual_Tax_Invoice_2024.pdf") None
  = Some (DetectionResult.mk PRIVATE_FINANCIAL "04_Private/Financial" 9
                             "Financial Document").
Proof.
  apply (C3_invoice_before_tax_before_extension
           (fileNamed "Annual_Tax_Invoice_2024.pdf") None);
    reflexivity.
Defined.

(** A folder with a folder [Assets] and a plain file [ProjectSettings]
    is matched by the detector: the kind of [ProjectSettings] is not
    looked at. *)
Lemma C4_counterexample :
  ~ UnityClaimAsStated
      (folderOf "Game" None None)
      (Some [folderOf "Assets" None None; fileNamed "ProjectSettings"]).
Proof.
  unfold UnityClaimAsStated. intros [H _].
  destruct (H eq_refl) as (_ & _ & l & c & E & Hin & Hn & Ht).
  injection E as <-. simpl in Hin.
  destruct Hin as [<-|[<-|[]]]; simpl in *; discriminate.
Qed.

(** C4, amended.  The Unity detector matches exactly the folders whose
    given children contain a folder named [Assets] and a child of any
    kind named [ProjectSettings]; an absent children collection has no
    such child. *)
Theorem C4_unity_detector_both_markers :
  forall (item : FileNode) (cs : option (list FileNode)),
    ProjectDetector.check unityDetector item cs = true <->
    type item = folder
    /\ HasChild (fun c => name c = "Assets" /\ type c = folder) cs
    /\ HasChild (fun c => name c = "ProjectSettings") cs.
Proof.
  intros item cs. cbn [ProjectDetector.check unityDetector].
  unfold checkUnity. rewrite <- isFolder_true.
  destruct (isFolder item); cbn [negb].
  - rewrite andb_true_iff, !someOpt_spec.
    split.
    + intros [(l & c & E & Hin & H) (l' & c' & E' & Hin' & H')].
      apply andb_true_iff in H. destruct H as [Hn Hf].
      apply String.eqb_eq in Hn, H'. apply isFolder_true in Hf.
      split; [reflexivity|]. split; [exists l, c|exists l', c']; auto.
    + intros (_ & (l & c & E & Hin & Hn & Hf) & (l' & c' & E' & Hin' & H')).
      split; [exists l, c|exists l', c']; repeat split; auto.
      * rewrite andb_true_iff, String.eqb_eq, isFolder_true. auto.
      * now apply String.eqb_eq.
  - split; [discriminate|]. intros [H _]. discriminate.
Qed.

Lemma C4_witness :
  ProjectDetector.check unityDetector
    (folderOf "Game" None None)
    (Some [folderOf "Assets" None None; fileNamed "ProjectSettings"])
  = true
  /\ ProjectDetector.check unityDetector
       (folderOf "Game" None None)
       (Some [fileNamed "Assets"; folderOf "ProjectSettings" None None])
     = false.
Proof.
  split.
  - apply (proj2 (C4_unity_detector_both_markers _ _)).
    split; [reflexivity|].
    split; [exists [folderOf "Assets" None None; fileNamed "ProjectSettings"],
                   (folderOf "Assets" None None)
           |exists [folderOf "Assets" None None; fileNamed "ProjectSettings"],
                   (fileNamed "ProjectSettings")];
      simpl; auto.
  - reflexivity.
Defined.

Lemma checkEmpty_children item :
  0 < childCount item -> checkEmpty item = false.
Proof.
  unfold checkEmpty. fold (childCount item). intros H.
  replace (childCount item =? 0) with false by (symmetry; apply Z.eqb_neq; lia).
  apply andb_false_r.
Qed.

Lemma checkOldTemp_young item :
  orElse0 (age item) <= 30 -> checkOldTemp item = false.
Proof.
  unfold checkOldTemp. intros H.
  replace (orElse0 (age item) >? 30) with false
    by (symmetry; rewrite Z.gtb_ltb; apply Z.ltb_ge; lia).
  apply andb_false_r.
Qed.

Lemma checkStale_young item :
  orElse0 (age item) <= 365 -> checkStale item = false.
Proof.
  unfold checkStale. intros H.
  replace (orElse0 (age item) >? 365) with false
    by (symmetry; rewrite Z.gtb_ltb; apply Z.ltb_ge; lia).
  now rewrite andb_false_r.
Qed.

(** C5. A folder with at least one child that no project detector
    matches, whose name neither contains [temp] nor starts with a dot,
    is classified [ARCHIVE_STALE], with target [99_Archives/2024] and
    priority 4, as soon as its age exceeds 365 days, and its reason is
    [Inactive (<age>d)] with the decimal digits of the age when the age
    is a safe integer; at 365 days or less (and so between 180 and 365
    days) it is not classified [ARCHIVE_STALE]. *)
Theorem C5_stale_threshold_365 :
  forall (item : FileNode) (cs : option (list FileNode)) (a : Z),
    type item = folder ->
    NoProjectMatch item cs ->
    0 < childCount item ->
    ~ Contains "temp" (name item) ->
    ~ StartsWith "." (name item) ->
    age item = Some a ->
    (365 < a ->
     (exists reason,
         detectFileCategory item cs
         = Some (DetectionResult.mk ARCHIVE_STALE "99_Archives/2024" 4
                                    reason))
     /\ (a <= MAX_SAFE_INTEGER ->
         detectFileCategory item cs
         = Some (DetectionResult.mk ARCHIVE_STALE "99_Archives/2024" 4
                   ("Inactive (" ++ JsString.ofNumber a ++ "d)"))))
    /\ (a <= 365 ->
        forall r, detectFileCategory item cs = Some r ->
                  DetectionResult.category r <> ARCHIVE_STALE).
Proof.
  intros item cs a Ht Hp Hc Hn Hd Ha. split.
  - intros Hlt.
    enough (E : detectFileCategory item cs
                = Some (DetectionResult.mk ARCHIVE_STALE "99_Archives/2024" 4
                          (reasonStale item))).
    { split; [eauto|]. intros _. rewrite E. unfold reasonStale.
      rewrite Ha. reflexivity. }
    unfold detectFileCategory.
    apply projectStage_none in Hp. rewrite Hp.
    unfold folderStage, FOLDER_RULES.
    apply isFolder_true in Ht. rewrite Ht.
    cbn [find FolderRule.check].
    rewrite (checkEmpty_children _ Hc).
    unfold checkOldTemp. rewrite (includes_false _ _ Hn), andb_false_r.
    cbn [andb]. unfold checkStale.
    rewrite Ht, (startsWith_false _ _ Hd), Ha. cbn [orElse0].
    replace (a >? 365) with true
      by (symmetry; rewrite Z.gtb_ltb; apply Z.ltb_lt; lia).
    cbn [andb negb FolderRule.category FolderRule.reason reasonOf].
    reflexivity.
  - intros Hle r Hr Hcat.
    destruct (detect_category_origin _ _ _ Hr) as [_ Hs].
    specialize (Hs Hcat).
    rewrite checkStale_young in Hs; [discriminate|].
    rewrite Ha. exact Hle.
Qed.

Lemma not_Contains_by_includes w s :
  JsString.includes s w = false -> ~ Contains w s.
Proof. intros E H. apply includes_spec in H. congruence. Qed.

Lemma not_StartsWith_by_startsWith w s :
  JsString.startsWith s w = false -> ~ StartsWith w s.
Proof. intros E H. apply startsWith_spec in H. congruence. Qed.

Lemma not_ContainsI_by_test w s :
  test (re w) s = false -> ~ ContainsI w s.
Proof. intros E H. apply test_spec in H. congruence. Qed.

(** At 400 days the reason reads [Inactive (400d)]; at 365 and at 200
    days the folder is left unclassified. *)
Lemma C5_witness :
  detectFileCategory (staleFolder 400) (Some [fileNamed "notes"])
  = Some (DetectionResult.mk ARCHIVE_STALE "99_Archives/2024" 4
                             "Inactive (400d)")
  /\ (forall r,
         detectFileCategory (staleFolder 365) (Some [fileNamed "notes"])
         = Some r ->
         DetectionResult.category r <> ARCHIVE_STALE)
  /\ (forall r,
         detectFileCategory (staleFolder 200) (Some [fileNamed "notes"])
         = Some r ->
         DetectionResult.category r <> ARCHIVE_STALE).
Proof.
  assert (H : forall a,
             (365 < a ->
              (exists reason,
                  detectFileCategory (staleFolder a)
                                     (Some [fileNamed "notes"])
                  = Some (DetectionResult.mk ARCHIVE_STALE
                            "99_Archives/2024" 4 reason))
              /\ (a <= MAX_SAFE_INTEGER ->
                  detectFileCategory (staleFolder a)
                                     (Some [fileNamed "notes"])
                  = Some (DetectionResult.mk ARCHIVE_STALE
                            "99_Archives/2024" 4
                            ("Inactive (" ++ JsString.ofNumber a ++ "d)"))))
             /\ (a <= 365 ->
                 forall r,
                   detectFileCategory (staleFolder a)
                                      (Some [fileNamed "notes"]) = Some r ->
                   DetectionResult.category r <> ARCHIVE_STALE)).
  { intros a.
    apply (C5_stale_threshold_365 (staleFolder a)
                                  (Some [fileNamed "notes"]) a).
    - reflexivity.
    - apply projectStage_none. reflexivity.
    - reflexivity.
    - apply not_Contains_by_includes. reflexivity.
    - apply not_StartsWith_by_startsWith. reflexivity.
    - reflexivity. }
  split; [|split].
  - apply (proj1 (H 400)); [lia|]. unfold MAX_SAFE_INTEGER. lia.
  - apply (proj2 (H 365)). lia.
  - apply (proj2 (H 200)). lia.
Defined.

(** Without children the folder is taken by the empty-folder rule, which
    comes first. *)
Lemma C6_counterexample :
  detectFileCategory (folderOf "my-temp-build" None (Some 45)) None
  = Some (DetectionResult.mk VACUUM_EMPTY "VACUUM" 3 "Empty Folder")
  /\ ~ TempBuildClaimAsStated (folderOf "my-temp-build" None (Some 45)) None.
Proof.
  split; [reflexivity|].
  intros H.
  destruct H as [H _]; try reflexivity.
  - apply projectStage_none. reflexivity.
  - specialize (H eq_refl). vm_compute in H. discriminate H.
Qed.

(** C6, amended.  A folder named [my-temp-build] with at least one
    child that no project detector matches is classified [VACUUM_TEMP]
    at 45 days; at 10 days no folder rule holds of it, its name passes
    no name pattern, and it is left unclassified. *)
Theorem C6_temp_folder_by_age :
  forall (item : FileNode) (cs : option (list FileNode)),
    name item = "my-temp-build" ->
    type item = folder ->
    NoProjectMatch item cs ->
    0 < childCount item ->
    (age item = Some 45 ->
     detectFileCategory item cs
     = Some (DetectionResult.mk VACUUM_TEMP "VACUUM" 6 "Old Temp Folder"))
    /\ (age item = Some 10 ->
        NoFolderRule item /\ NoNamePattern item
        /\ detectFileCategory item cs = None).
Proof.
  intros [n t ch a c sz] cs Hn Ht Hp Hc.
  unfold childCount in Hc. simpl in Hn, Ht, Hc. subst n t.
  apply projectStage_none in Hp.
  destruct ch as [[|c0 l]|]; simpl in Hc; try lia.
  split; intros Ha; simpl in Ha; subst a.
  - unfold detectFileCategory. rewrite Hp. reflexivity.
  - split; [|split].
    + intros r Hr. simpl in Hr.
      repeat (destruct Hr as [<-|Hr]; [reflexivity|]). contradiction.
    + intros p Hr. simpl in Hr.
      repeat (destruct Hr as [<-|Hr]; [reflexivity|]). contradiction.
    + unfold detectFileCategory. rewrite Hp. reflexivity.
Qed.

Lemma C6_witness :
  detectFileCategory
    (folderOf "my-temp-build" (Some [fileNamed "a.o"]) (Some 45))
    (Some [fileNamed "a.o"])
  = Some (DetectionResult.mk VACUUM_TEMP "VACUUM" 6 "Old Temp Folder")
  /\ detectFileCategory
       (folderOf "my-temp-build" (Some [fileNamed "a.o"]) (Some 10))
       (Some [fileNamed "a.o"])
     = None.
Proof.
  split.
  - apply (C6_temp_folder_by_age
             (folderOf "my-temp-build" (Some [fileNamed "a.o"]) (Some 45))
             (Some [fileNamed "a.o"]));
      try reflexivity.
    apply projectStage_none. reflexivity.
  - apply (C6_temp_folder_by_age
             (folderOf "my-temp-build" (Some [fileNamed "a.o"]) (Some 10))
             (Some [fileNamed "a.o"]));
      try reflexivity.
    apply projectStage_none. reflexivity.
Defined.

Lemma folderStage_young item :
  orElse0 (age item) <= 30 -> folderStage item = folderStageYoung item.
Proof.
  intros H. unfold folderStage, folderStageYoung, FOLDER_RULES.
  cbn [find FolderRule.check].
  rewrite (checkOldTemp_young _ H), checkStale_young by lia.
  destruct (isFolder item); [|reflexivity].
  destruct (checkEmpty item); [reflexivity|].
  destruct (checkDotnet item); [reflexivity|].
  destruct (checkDotFolder item); reflexivity.
Qed.

(** The age is read by the folder stage only. *)
Lemma detect_young_age item cs a b :
  orElse0 a <= 30 -> orElse0 b <= 30 ->
  detectFileCategory (withAge a item) cs
  = detectFileCategory (withAge b item) cs.
Proof.
  intros Ha Hb. unfold detectFileCategory.
  rewrite (folderStage_young (withAge a item)),
          (folderStage_young (withAge b item))
    by (destruct item; assumption).
  destruct item as [n t ch a0 c sz]. reflexivity.
Qed.

(** C7. A folder whose age is absent is classified exactly as the same
    folder with age 0, and never as [VACUUM_TEMP] or [ARCHIVE_STALE]. *)
Theorem C7_absent_age_as_zero :
  forall (item : FileNode) (cs : option (list FileNode)),
    type item = folder ->
    age item = None ->
    detectFileCategory item cs
    = detectFileCategory (withAge (Some 0) item) cs
    /\ forall r, detectFileCategory item cs = Some r ->
                 DetectionResult.category r <> VACUUM_TEMP
                 /\ DetectionResult.category r <> ARCHIVE_STALE.
Proof.
  intros item cs _ Ha. split.
  - replace item with (withAge None item) at 1
      by (destruct item; simpl in Ha; now subst).
    apply detect_young_age; simpl; lia.
  - intros r Hr.
    destruct (detect_category_origin _ _ _ Hr) as [Ht Hs].
    split; intros Hc.
    + specialize (Ht Hc).
      rewrite checkOldTemp_young in Ht; [discriminate|].
      rewrite Ha. simpl. lia.
    + specialize (Hs Hc).
      rewrite checkStale_young in Hs; [discriminate|].
      rewrite Ha. simpl. lia.
Qed.

(** A folder named [my-temp-build] with a child and no age is left
    unclassified, as it is with age 0. *)
Lemma C7_witness :
  detectFileCategory
    (folderOf "my-temp-build" (Some [fileNamed "a.o"]) None) None
  = detectFileCategory
      (folderOf "my-temp-build" (Some [fileNamed "a.o"]) (Some 0)) None.
Proof.
  apply (C7_absent_age_as_zero
           (folderOf "my-temp-build" (Some [fileNamed "a.o"]) None) None);
    reflexivity.
Defined.

Lemma extensionStage_split item pre suf :
  type item = file ->
  name item = pre ++ "." ++ suf ->
  ~ Occurs "." suf ->
  extensionStage item = extensionResult (JsString.toLowerCase ("." ++ suf)).
Proof.
  intros Ht Hn Hs. unfold extensionStage, extensionResult.
  apply isFile_true in Ht. rewrite Ht, Hn.
  change (pre ++ "." ++ suf) with (pre ++ String "." suf).
  rewrite (lastIndexOf_split pre suf "." Hs), substring_after.
  replace (Z.of_nat (String.length pre) =? -1) with false
    by (symmetry; apply Z.eqb_neq; lia).
  reflexivity.
Qed.

Lemma extensionStage_no_dot item :
  ~ Occurs "." (name item) -> extensionStage item = None.
Proof.
  intros H. unfold extensionStage.
  rewrite (lastIndexOf_absent _ _ H). now destruct (isFile item).
Qed.

Lemma extensionStage_folder item :
  type item = folder -> extensionStage item = None.
Proof.
  intros H. unfold extensionStage. now rewrite (isFile_folder _ H).
Qed.

Lemma detect_file item cs :
  type item = file ->
  detectFileCategory item cs
  = match nameStage item with
    | Some r => Some r
    | None => extensionStage item
    end.
Proof.
  intros Ht. unfold detectFileCategory.
  rewrite (proj1 (projectStage_none item cs) (file_NoProjectMatch _ _ Ht)).
  now rewrite (file_folderStage _ Ht).
Qed.

(** C8. The extension stage answers for files only and only when the
    name passes no name pattern.  Its key is the part of the name from
    the last dot to the end, in lower case, so [REPORT.PDF] falls under
    the [.pdf] rule; a file whose name has no dot and passes no name
    pattern is left unclassified. *)
Theorem C8_extension_stage :
  (forall item cs,
      type item = folder ->
      NoProjectMatch item cs -> NoFolderRule item -> NoNamePattern item ->
      detectFileCategory item cs = None)
  /\ (forall item cs r,
         type item = file -> nameStage item = Some r ->
         detectFileCategory item cs = Some r)
  /\ (forall item cs pre suf,
         type item = file -> NoNamePattern item ->
         name item = pre ++ "." ++ suf -> ~ Occurs "." suf ->
         detectFileCategory item cs
         = extensionResult (JsString.toLowerCase ("." ++ suf)))
  /\ (forall item cs,
         type item = file -> NoNamePattern item ->
         ~ Occurs "." (name item) ->
         detectFileCategory item cs = None)
  /\ detectFileCategory (fileNamed "REPORT.PDF") None
     = Some (DetectionResult.mk DOC_PDF "03_Library/Documents" 5
                                "PDF Document").
Proof.
  repeat apply conj.
  - intros item cs Ht Hp Hf Hn. unfold detectFileCategory.
    apply projectStage_none in Hp. apply folderStage_none in Hf.
    apply nameStage_none in Hn.
    rewrite Hp, Hf, Hn. now apply extensionStage_folder.
  - intros item cs r Ht Hn. rewrite detect_file, Hn by assumption.
    reflexivity.
  - intros item cs pre suf Ht Hn He Hs.
    apply nameStage_none in Hn.
    rewrite detect_file, Hn by assumption.
    now apply extensionStage_split with (pre := pre).
  - intros item cs Ht Hn Hd. apply nameStage_none in Hn.
    rewrite detect_file, Hn by assumption.
    now apply extensionStage_no_dot.
  - reflexivity.
Qed.

Lemma lastIndexOfFrom_range c : forall s i last,
  lastIndexOfFrom c s i last = last \/ i <= lastIndexOfFrom c s i last.
Proof.
  induction s as [|a s IH]; intros i last; simpl; [now left|].
  destruct (Ascii.eqb a c).
  - destruct (IH (i + 1) i) as [->|H]; right; lia.
  - destruct (IH (i + 1) last) as [->|H]; [now left|right; lia].
Qed.

Lemma lastIndexOfFrom_occurs c s i last :
  Occurs c s -> i <= lastIndexOfFrom c s i last.
Proof.
  intros (pre & suf & ->). revert i last.
  induction pre as [|a pre IH]; intros i last; simpl.
  - rewrite Ascii.eqb_refl.
    destruct (lastIndexOfFrom_range c suf (i + 1) i) as [->|H]; lia.
  - specialize (IH (i + 1) (if Ascii.eqb a c then i else last)). lia.
Qed.

Lemma not_Occurs_by_lastIndexOf c s :
  lastIndexOf s c = -1 -> ~ Occurs c s.
Proof.
  intros E H. apply (lastIndexOfFrom_occurs c s 0 (-1)) in H.
  unfold lastIndexOf in E. lia.
Qed.

Lemma NoNamePattern_by_nameStage item :
  nameStage item = None -> NoNamePattern item.
Proof. apply nameStage_none. Qed.

(** [photo.JPeG] falls under the [.jpeg] rule; [Makefile] and [README]
    are left unclassified; [syntax.txt] is taken by a name pattern; a
    folder named [backup.zip] is not taken by the [.zip] rule. *)
Lemma C8_witness :
  detectFileCategory (folderOf "backup.zip" (Some [fileNamed "a"]) None)
                     (Some [fileNamed "a"]) = None
  /\ detectFileCategory (fileNamed "syntax.txt") None
     = Some (DetectionResult.mk PRIVATE_FINANCIAL "04_Private/Financial" 9
                                "Tax Document")
  /\ detectFileCategory (fileNamed "my.photo.JPeG") None
     = Some (DetectionResult.mk MEDIA_IMAGE "05_Stage/Media/Images" 5
                                "Image File")
  /\ detectFileCategory (fileNamed "Makefile") None = None.
Proof.
  destruct C8_extension_stage as (H1 & H2 & H3 & H4 & _).
  repeat apply conj.
  - apply H1; [reflexivity| | |].
    + apply projectStage_none. reflexivity.
    + intros r Hr. simpl in Hr.
      repeat (destruct Hr as [<-|Hr]; [reflexivity|]). contradiction.
    + apply NoNamePattern_by_nameStage. reflexivity.
  - apply H2; reflexivity.
  - apply (H3 (fileNamed "my.photo.JPeG") None "my.photo" "JPeG").
    + reflexivity.
    + apply NoNamePattern_by_nameStage. reflexivity.
    + reflexivity.
    + apply not_Occurs_by_lastIndexOf. reflexivity.
  - apply H4.
    + reflexivity.
    + apply NoNamePattern_by_nameStage. reflexivity.
    + apply not_Occurs_by_lastIndexOf. reflexivity.
Defined.

(** C10. The name patterns are unanchored searches that ignore case: a
    node that reaches the name-pattern stage and whose name contains
    [tax] in any mix of cases, inside a longer word or not, and contains
    neither [invoice] nor [receipt], is classified as financial by the
    [tax] pattern, whatever its extension. *)
Theorem C10_tax_pattern_unanchored :
  forall (item : FileNode) (cs : option (list FileNode)),
    projectStage item cs = None ->
    folderStage item = None ->
    ContainsI "tax" (name item) ->
    ~ ContainsI "invoice" (name item) ->
    ~ ContainsI "receipt" (name item) ->
    detectFileCategory item cs
    = Some (DetectionResult.mk PRIVATE_FINANCIAL "04_Private/Financial" 9
                               "Tax Document").
Proof.
  intros item cs Hp Hf Ht Hi Hr. unfold detectFileCategory.
  rewrite Hp, Hf. unfold nameStage, NAME_PATTERNS.
  cbn [find NamePattern.pattern].
  rewrite (test_false _ _ Hi), (test_false _ _ Hr).
  apply test_spec in Ht. rewrite Ht. reflexivity.
Qed.

(** [syntax_overview.txt] is a tax document, not a text file; so is the
    folder [SynTax] with a child. *)
Lemma C10_witness :
  detectFileCategory (fileNamed "syntax_overview.txt") None
  = Some (DetectionResult.mk PRIVATE_FINANCIAL "04_Private/Financial" 9
                             "Tax Document")
  /\ detectFileCategory (folderOf "SynTax" (Some [fileNamed "a"]) None)
                        (Some [fileNamed "a"])
     = Some (DetectionResult.mk PRIVATE_FINANCIAL "04_Private/Financial" 9
                                "Tax Document")
  /\ extensionStage (fileNamed "syntax_overview.txt")
     = Some (DetectionResult.mk DOC_TEXT "03_Library/Notes" 5 "Text File").
Proof.
  repeat apply conj.
  - apply C10_tax_pattern_unanchored; try reflexivity.
    + exists "syn", "tax", "_overview.txt". split; reflexivity.
    + apply not_ContainsI_by_test. reflexivity.
    + apply not_ContainsI_by_test. reflexivity.
  - apply C10_tax_pattern_unanchored; try reflexivity.
    + exists "Syn", "Tax", "". split; reflexivity.
    + apply not_ContainsI_by_test. reflexivity.
    + apply not_ContainsI_by_test. reflexivity.
  - reflexivity.
Defined.

(** ** Folder sizes *)

Lemma orFalsy0_Some v : orFalsy0 (Some v) = v.
Proof.
  unfold orFalsy0. destruct (v =? 0) eqn:E; [|reflexivity].
  apply Z.eqb_eq in E. now subst.
Qed.

Lemma map_fixed {A} (f : A -> A) (l : list A) :
  Forall (fun x => f (f x) = f x) l -> map f (map f l) = map f l.
Proof.
  induction 1 as [|x l Hx _ IH]; simpl; congruence.
Qed.

(** C9. Computing the folder sizes bottom-up is idempotent: a second
    pass over the result of a first pass changes nothing. *)
Theorem C9_enrichWithSizes_idempotent :
  forall t : FileNode,
    enrichWithSizes (enrichWithSizes t) = enrichWithSizes t.
Proof.
  unfold enrichWithSizes.
  induction t as [n t ch a c sz IH] using FileNode_ind'.
  cbn [traverse].
  set (kids := match ch with Some l => map traverse l | None => [] end).
  assert (K : map traverse kids = kids).
  { subst kids. destruct ch as [l|]; [|reflexivity].
    apply map_fixed. exact IH. }
  rewrite K. f_equal. f_equal.
  destruct t; [|reflexivity].
  apply orFalsy0_Some.
Qed.

(** The size of a folder after a pass is the sum of the sizes of its
    children after that pass. *)
Lemma traverse_folder_size n ch a c sz :
  size (traverse (mkFileNode n folder ch a c sz))
  = Some (fold_left (fun acc child => acc + orFalsy0 (size child))
                    (match ch with
                     | Some l => map traverse l
                     | None => []
                     end) 0).
Proof. reflexivity. Qed.

(** ** More on classification *)

Lemma lowerChar_idem c : lowerChar (lowerChar c) = lowerChar c.
Proof.
  destruct c as [b0 b1 b2 b3 b4 b5 b6 b7].
  destruct b0, b1, b2, b3, b4, b5, b6, b7; reflexivity.
Qed.

Lemma lowerChar_dot c : Ascii.eqb (lowerChar c) "." = Ascii.eqb c ".".
Proof.
  destruct c as [b0 b1 b2 b3 b4 b5 b6 b7].
  destruct b0, b1, b2, b3, b4, b5, b6, b7; reflexivity.
Qed.

Lemma toLowerCase_idem s : toLowerCase (toLowerCase s) = toLowerCase s.
Proof. induction s; simpl; [|rewrite lowerChar_idem]; congruence. Qed.

Lemma toLowerCase_length s : String.length (toLowerCase s) = String.length s.
Proof. induction s; simpl; congruence. Qed.

Lemma toLowerCase_app s t :
  toLowerCase (s ++ t) = toLowerCase s ++ toLowerCase t.
Proof. induction s; simpl; congruence. Qed.

Lemma matchHereI_lower p : forall s,
  matchHere eqCharI p (toLowerCase s) = matchHere eqCharI p s.
Proof.
  induction p as [|a p IH]; intros [|b s]; simpl; try reflexivity.
  unfold eqCharI at 1 3. now rewrite canonicalize_lower, IH.
Qed.

Lemma test_lower r s : test r (toLowerCase s) = test r s.
Proof.
  unfold test. induction s as [|b s IH].
  - reflexivity.
  - change (toLowerCase (String b s))
      with (String (lowerChar b) (toLowerCase s)).
    cbn [search]. rewrite IH. f_equal.
    apply (matchHereI_lower (source r) (String b s)).
Qed.

Lemma lastIndexOfFrom_lower : forall s i last,
  lastIndexOfFrom "." (toLowerCase s) i last = lastIndexOfFrom "." s i last.
Proof.
  induction s as [|a s IH]; intros i last; simpl; [reflexivity|].
  now rewrite lowerChar_dot, IH.
Qed.

Lemma String_substring_lower : forall s n m,
  String.substring n m (toLowerCase s)
  = toLowerCase (String.substring n m s).
Proof.
  induction s as [|a s IH]; intros [|n] [|m]; simpl; try reflexivity;
    now rewrite IH.
Qed.

Lemma substring_lower s i :
  substring (toLowerCase s) i = toLowerCase (substring s i).
Proof.
  unfold substring. now rewrite toLowerCase_length, String_substring_lower.
Qed.

Lemma nameStage_lower a b :
  toLowerCase (name a) = toLowerCase (name b) -> nameStage a = nameStage b.
Proof.
  intros E. unfold nameStage.
  assert (F : forall l,
             find (fun p => test (NamePattern.pattern p) (name a)) l
             = find (fun p => test (NamePattern.pattern p) (name b)) l).
  { induction l as [|p l IH]; simpl; [reflexivity|].
    rewrite <- (test_lower _ (name a)), E, test_lower, IH. reflexivity. }
  now rewrite F.
Qed.

Lemma extensionStage_lower a b :
  type a = type b ->
  toLowerCase (name a) = toLowerCase (name b) ->
  extensionStage a = extensionStage b.
Proof.
  intros Ht E. unfold extensionStage, isFile. rewrite Ht.
  assert (L : lastIndexOf (name a) "." = lastIndexOf (name b) ".").
  { unfold lastIndexOf.
    now rewrite <- (lastIndexOfFrom_lower (name a)), E,
                lastIndexOfFrom_lower. }
  rewrite L.
  assert (S : toLowerCase (substring (name a) (lastIndexOf (name b) "."))
              = toLowerCase (substring (name b) (lastIndexOf (name b) "."))).
  { rewrite <- (toLowerCase_idem (substring (name a) _)),
            <- substring_lower, E, substring_lower.
    apply toLowerCase_idem. }
  now rewrite S.
Qed.

(** X1. Two files whose names differ only in the case of letters are
    classified alike, whatever their other fields and whatever children
    are passed along: a file is classified by its lower-cased name
    only. *)
Theorem file_classified_by_lowercased_name :
  forall (a b : FileNode) (cs cs' : option (list FileNode)),
    type a = file -> type b = file ->
    toLowerCase (name a) = toLowerCase (name b) ->
    detectFileCategory a cs = detectFileCategory b cs'.
Proof.
  intros a b cs cs' Ha Hb E.
  rewrite !detect_file by assumption.
  rewrite (nameStage_lower a b E).
  rewrite (extensionStage_lower a b) by congruence.
  reflexivity.
Qed.

Lemma file_classified_by_lowercased_name_witness :
  detectFileCategory (fileNamed "HOLIDAY.Jpg") None
  = detectFileCategory
      (mkFileNode "holiday.jpg" file (Some []) (Some 900) None (Some 3))
      (Some [fileNamed ".git"]).
Proof.
  apply file_classified_by_lowercased_name; reflexivity.
Defined.

Ltac origin_cases :=
  split; [|split; [|split]]; intros Hcat;
  first [discriminate Hcat | split; assumption | assumption].

(** Where a result of a folder rule comes from. *)
Lemma detect_folder_rule_origin item cs r :
  detectFileCategory item cs = Some r ->
  (DetectionResult.category r = VACUUM_EMPTY ->
   type item = folder /\ checkEmpty item = true)
  /\ (DetectionResult.category r = VACUUM_TEMP ->
      type item = folder /\ checkOldTemp item = true)
  /\ (DetectionResult.category r = SDK_DOTNET -> type item = folder)
  /\ (DetectionResult.category r = CONFIG_DOTFILE -> type item = folder).
Proof.
  intros H. apply detect_cases in H. destruct H as [H|[H|[H|H]]].
  - apply projectStage_some in H. destruct H as (d & Hin & _ & ->).
    simpl in Hin.
    repeat (destruct Hin as [<-|Hin]; [origin_cases|]).
    contradiction.
  - apply folderStage_some in H. destruct H as (Ht & rule & Hin & Hc & ->).
    simpl in Hin.
    repeat (destruct Hin as [<-|Hin]; [origin_cases|]).
    contradiction.
  - apply nameStage_some in H. destruct H as (p & Hin & _ & ->).
    simpl in Hin.
    repeat (destruct Hin as [<-|Hin]; [origin_cases|]).
    contradiction.
  - apply extensionStage_some in H.
    destruct H as (_ & ext & rule & Hin & ->).
    simpl in Hin.
    repeat (destruct Hin as [[= <- <-]|Hin]; [origin_cases|]).
    contradiction.
Qed.

Lemma detect_is_result item cs r :
  detectFileCategory item cs = Some r ->
  r = result (DetectionResult.category r) (DetectionResult.reason r).
Proof.
  intros E. apply detect_cases in E. destruct E as [H|[H|[H|H]]].
  - apply projectStage_some in H. now destruct H as (d & _ & _ & ->).
  - apply folderStage_some in H. now destruct H as (_ & d & _ & _ & ->).
  - apply nameStage_some in H. now destruct H as (d & _ & _ & ->).
  - apply extensionStage_some in H. now destruct H as (_ & e & d & _ & ->).
Qed.

Lemma vacuum_origin :
  forall (item : FileNode) (cs : option (list FileNode))
         (r : DetectionResult.t),
    detectFileCategory item cs = Some r ->
    DetectionResult.target r = "VACUUM" ->
    type item = folder
    /\ ((DetectionResult.category r = VACUUM_EMPTY /\ childCount item = 0)
        \/ (DetectionResult.category r = VACUUM_TEMP
            /\ Contains "temp" (name item) /\ 30 < orElse0 (age item))).
Proof.
  intros item cs r H Ht.
  destruct (detect_folder_rule_origin _ _ _ H) as (He & Hold & _ & _).
  rewrite (detect_is_result _ _ _ H) in Ht.
  destruct (DetectionResult.category r); try discriminate Ht.
  - destruct (He eq_refl) as [Hf Hc]. split; [assumption|left].
    split; [reflexivity|].
    unfold checkEmpty in Hc. apply andb_true_iff in Hc.
    destruct Hc as [_ Hc]. now apply Z.eqb_eq in Hc.
  - destruct (Hold eq_refl) as [Hf Hc]. split; [assumption|right].
    split; [reflexivity|].
    unfold checkOldTemp in Hc. rewrite !andb_true_iff in Hc.
    destruct Hc as [[_ Hi] Hg]. split.
    + now apply includes_spec.
    + rewrite Z.gtb_ltb in Hg. now apply Z.ltb_lt.
Qed.

(** X2. The target [VACUUM] is given to the two cleanup categories and
    to no other, and only to a folder that has no children of its own
    or whose name contains [temp] and whose age exceeds 30 days: no
    file is ever marked for deletion by the classification. *)
Theorem vacuum_only_for_empty_or_old_temp_folders :
  forall (item : FileNode) (cs : option (list FileNode))
         (r : DetectionResult.t),
    detectFileCategory item cs = Some r ->
    DetectionResult.target r = "VACUUM" ->
    type item = folder
    /\ ((DetectionResult.category r = VACUUM_EMPTY /\ childCount item = 0)
        \/ (DetectionResult.category r = VACUUM_TEMP
            /\ Contains "temp" (name item) /\ 30 < orElse0 (age item))).
Proof. exact vacuum_origin. Qed.

Lemma vacuum_only_for_empty_or_old_temp_folders_witness :
  type (folderOf "my-temp-build" (Some [fileNamed "a.o"]) (Some 45)) = folder
  /\ ((VACUUM_TEMP = VACUUM_EMPTY
       /\ childCount
            (folderOf "my-temp-build" (Some [fileNamed "a.o"]) (Some 45)) = 0)
      \/ (VACUUM_TEMP = VACUUM_TEMP
          /\ Contains "temp" "my-temp-build" /\ 30 < 45)).
Proof.
  apply (vacuum_only_for_empty_or_old_temp_folders
           (folderOf "my-temp-build" (Some [fileNamed "a.o"]) (Some 45))
           None
           (DetectionResult.mk VACUUM_TEMP "VACUUM" 6 "Old Temp Folder"));
    reflexivity.
Defined.

(** X3. A file is given one of the document, media, archive, tool or
    private categories, never a project, cleanup, SDK or config one, and
    its priority lies between 5 and 9. *)
Theorem file_category_range :
  forall (item : FileNode) (cs : option (list FileNode))
         (r : DetectionResult.t),
    type item = file ->
    detectFileCategory item cs = Some r ->
    In (DetectionResult.category r) fileCategories
    /\ 5 <= DetectionResult.priority r <= 9.
Proof.
  intros item cs r Ht H. rewrite detect_file in H by assumption.
  destruct (nameStage item) as [r'|] eqn:N.
  - injection H as ->. apply nameStage_some in N.
    destruct N as (p & Hin & _ & ->). simpl in Hin.
    repeat (destruct Hin as [<-|Hin]; [split; [simpl; tauto|simpl; lia]|]).
    contradiction.
  - apply extensionStage_some in H.
    destruct H as (_ & ext & rule & Hin & ->). simpl in Hin.
    repeat (destruct Hin as [[= <- <-]|Hin];
            [split; [simpl; tauto|simpl; lia]|]).
    contradiction.
Qed.

Lemma file_category_range_witness :
  In DOC_PDF fileCategories /\ 5 <= 5 <= 9.
Proof.
  apply (file_category_range
           (fileNamed "REPORT.PDF") None
           (DetectionResult.mk DOC_PDF "03_Library/Documents" 5
                               "PDF Document"));
    reflexivity.
Defined.

Lemma hasChildNamed_spec n cs :
  hasChildNamed n cs = true <-> HasChildNamed n cs.
Proof.
  unfold hasChildNamed, HasChildNamed. rewrite someOpt_spec.
  split; intros (l & c & E & Hin & H); exists l, c;
    (split; [assumption|split; [assumption|]]); now apply String.eqb_eq.
Qed.

Lemma python_spec cs :
  someOpt (fun child => existsb (String.eqb (name child)) pythonIndicators) cs
  = true
  <-> HasPythonMarker cs.
Proof.
  unfold HasPythonMarker. rewrite someOpt_spec.
  split; intros (l & c & E & Hin & H); exists l, c;
    (split; [assumption|split; [assumption|]]).
  - apply existsb_exists in H. destruct H as (x & Hx & Ex).
    apply String.eqb_eq in Ex. now subst.
  - apply existsb_exists. exists (name c). split; [assumption|].
    apply String.eqb_refl.
Qed.

Lemma java_spec cs :
  someOpt (fun child => String.eqb (name child) "pom.xml"
                        || String.eqb (name child) "build.gradle") cs = true
  <-> HasChildNamed "pom.xml" cs \/ HasChildNamed "build.gradle" cs.
Proof.
  unfold HasChildNamed. rewrite someOpt_spec. split.
  - intros (l & c & E & Hin & H). apply orb_true_iff in H.
    destruct H as [H|H]; apply String.eqb_eq in H;
      [left|right]; exists l, c; auto.
  - intros [(l & c & E & Hin & H)|(l & c & E & Hin & H)]; exists l, c;
      (split; [assumption|split; [assumption|]]);
      apply orb_true_iff; [left|right]; now apply String.eqb_eq.
Qed.

Lemma unity_spec item cs :
  type item = folder -> (checkUnity item cs = true <-> HasUnityMarkers cs).
Proof.
  intros Ht. unfold checkUnity, HasUnityMarkers.
  apply isFolder_true in Ht. rewrite Ht. cbn [negb].
  rewrite andb_true_iff, someOpt_spec.
  change (someOpt (fun child => String.eqb (name child) "ProjectSettings") cs)
    with (hasChildNamed "ProjectSettings" cs).
  rewrite hasChildNamed_spec.
  split; intros [(l & c & E & Hin & H) H']; (split; [|assumption]);
    exists l, c; (split; [assumption|split; [assumption|]]).
  - apply andb_true_iff in H. destruct H as [Hn Hf].
    apply String.eqb_eq in Hn. now apply isFolder_true in Hf.
  - destruct H as [Hn Hf]. apply andb_true_iff.
    split; [now apply String.eqb_eq|now apply isFolder_true].
Qed.

(** The project stage of a folder, detector after detector. *)
Lemma projectStage_folder item cs :
  type item = folder ->
  projectStage item cs
  = if hasChildNamed ".git" cs
    then Some (result PROJECT_GIT "Git Repository")
    else if hasChildNamed "package.json" cs
    then Some (result PROJECT_NODE "Node.js Project")
    else if someOpt (fun child =>
                       existsb (String.eqb (name child)) pythonIndicators) cs
    then Some (result PROJECT_PYTHON "Python Project")
    else if checkUnity item cs
    then Some (result PROJECT_UNITY "Unity Project")
    else if hasChildNamed "Cargo.toml" cs
    then Some (result PROJECT_RUST "Rust Project")
    else if hasChildNamed "go.mod" cs
    then Some (result PROJECT_GO "Go Project")
    else if someOpt (fun child =>
                       String.eqb (name child) "pom.xml"
                       || String.eqb (name child) "build.gradle") cs
    then Some (result PROJECT_JAVA "Java Project")
    else None.
Proof.
  intros Ht. apply isFolder_true in Ht.
  unfold projectStage, PROJECT_DETECTORS.
  cbn [find ProjectDetector.check unityDetector].
  unfold checkGit, checkNode, checkPython, checkRust, checkGo, checkJava.
  rewrite Ht. cbn [negb].
  repeat match goal with
         | |- context [if ?b then _ else _] =>
             lazymatch b with
             | negb _ => fail
             | _ => destruct b
             end
         end; reflexivity.
Qed.

Ltac decide_marker H :=
  match type of H with
  | ~ HasChildNamed ?n ?cs =>
      let E := fresh "E" in
      destruct (hasChildNamed n cs) eqn:E;
      [apply hasChildNamed_spec in E; contradiction|]
  | HasChildNamed ?n ?cs =>
      apply hasChildNamed_spec in H; rewrite H
  end.

(** X4. The project detectors are tried in a fixed order on the
    children that are passed along, and the first marker found decides:
    [.git], then [package.json], then a Python marker, then the two
    Unity markers, then [Cargo.toml], then [go.mod], then [pom.xml] or
    [build.gradle]; the name, the age and the own children of the
    folder play no part.  Without any marker no detector matches. *)
Theorem project_detector_priority :
  forall (item : FileNode) (cs : option (list FileNode)),
    type item = folder ->
    (HasChildNamed ".git" cs ->
     detectFileCategory item cs
     = Some (DetectionResult.mk PROJECT_GIT "01_Build/Projects" 10
                                "Git Repository"))
    /\ (~ HasChildNamed ".git" cs ->
        (HasChildNamed "package.json" cs ->
         detectFileCategory item cs
         = Some (DetectionResult.mk PROJECT_NODE "01_Build/Web" 10
                                    "Node.js Project"))
        /\ (~ HasChildNamed "package.json" cs ->
            (HasPythonMarker cs ->
             detectFileCategory item cs
             = Some (DetectionResult.mk PROJECT_PYTHON "01_Build/Data" 10
                                        "Python Project"))
            /\ (~ HasPythonMarker cs ->
                (HasUnityMarkers cs ->
                 detectFileCategory item cs
                 = Some (DetectionResult.mk PROJECT_UNITY
                           "01_Build/Interactive" 10 "Unity Project"))
                /\ (~ HasUnityMarkers cs ->
                    (HasChildNamed "Cargo.toml" cs ->
                     detectFileCategory item cs
                     = Some (DetectionResult.mk PROJECT_RUST
                               "01_Build/Systems" 10 "Rust Project"))
                    /\ (~ HasChildNamed "Cargo.toml" cs ->
                        (HasChildNamed "go.mod" cs ->
                         detectFileCategory item cs
                         = Some (DetectionResult.mk PROJECT_GO
                                   "01_Build/Systems" 10 "Go Project"))
                        /\ (~ HasChildNamed "go.mod" cs ->
                            (HasChildNamed "pom.xml" cs
                             \/ HasChildNamed "build.gradle" cs ->
                             detectFileCategory item cs
                             = Some (DetectionResult.mk PROJECT_JAVA
                                       "01_Build/Enterprise" 10
                                       "Java Project"))
                            /\ (~ (HasChildNamed "pom.xml" cs
                                   \/ HasChildNamed "build.gradle" cs) ->
                                NoProjectMatch item cs))))))).
Proof.
  intros item cs Ht. unfold detectFileCategory.
  rewrite (projectStage_folder item cs Ht).
  split; [intros H; decide_marker H; reflexivity|].
  intros G; decide_marker G.
  split; [intros H; decide_marker H; reflexivity|].
  intros N; decide_marker N.
  split; [intros H; apply python_spec in H; now rewrite H|].
  intros Py.
  destruct (someOpt (fun child => existsb _ pythonIndicators) cs) eqn:EPy;
    [apply python_spec in EPy; contradiction|].
  split; [intros H; apply (unity_spec item cs Ht) in H; now rewrite H|].
  intros U.
  destruct (checkUnity item cs) eqn:EU;
    [apply (unity_spec item cs Ht) in EU; contradiction|].
  split; [intros H; decide_marker H; reflexivity|].
  intros R; decide_marker R.
  split; [intros H; decide_marker H; reflexivity|].
  intros Go; decide_marker Go.
  split; [intros H; apply java_spec in H; now rewrite H|].
  intros J. apply projectStage_none.
  rewrite (projectStage_folder item cs Ht).
  repeat match goal with
         | E : _ = false |- _ => rewrite E; clear E
         end.
  destruct (someOpt _ cs) eqn:EJ;
    [apply java_spec in EJ; contradiction|reflexivity].
Qed.

(** A crate inside a work tree is a Git repository; a folder of old
    invoices with a [Cargo.toml] is a Rust project. *)
Lemma project_detector_priority_witness :
  detectFileCategory
    (folderOf "crate" None None)
    (Some [fileNamed "Cargo.toml"; folderOf ".git" None None])
  = Some (DetectionResult.mk PROJECT_GIT "01_Build/Projects" 10
                             "Git Repository")
  /\ detectFileCategory
       (folderOf "old-temp-invoices" (Some []) (Some 900))
       (Some [fileNamed "Cargo.toml"])
     = Some (DetectionResult.mk PROJECT_RUST "01_Build/Systems" 10
                                "Rust Project").
Proof.
  split.
  - apply (project_detector_priority (folderOf "crate" None None));
      [reflexivity|].
    apply hasChildNamed_spec. reflexivity.
  - apply (project_detector_priority
             (folderOf "old-temp-invoices" (Some []) (Some 900)));
      try reflexivity;
      try (intros H;
           first [apply hasChildNamed_spec in H
                 |apply python_spec in H
                 |apply (unity_spec (folderOf "x" None None)) in H;
                  [|reflexivity]];
           discriminate H).
    apply hasChildNamed_spec. reflexivity.
Defined.

Lemma checkOldTemp_no_temp item :
  ~ Contains "temp" (name item) -> checkOldTemp item = false.
Proof.
  intros H. unfold checkOldTemp.
  now rewrite (includes_false _ _ H), andb_false_r.
Qed.

Lemma checkStale_dot item :
  StartsWith "." (name item) -> checkStale item = false.
Proof.
  intros H. unfold checkStale. apply startsWith_spec in H.
  rewrite H. apply andb_false_r.
Qed.

(** X5. A folder whose name starts with a dot, with a child of its own
    and no project match, is an SDK when it is named [.dotnet] and a
    config folder otherwise, at any age: it is never archived as stale.
    (A name with [temp] and an age above 30 days apart, which the temp
    rule takes first.) *)
Theorem dot_folder_sdk_or_config_at_any_age :
  forall (item : FileNode) (cs : option (list FileNode)),
    type item = folder ->
    StartsWith "." (name item) ->
    NoProjectMatch item cs ->
    0 < childCount item ->
    ~ Contains "temp" (name item) \/ orElse0 (age item) <= 30 ->
    detectFileCategory item cs
    = Some (if String.eqb (name item) ".dotnet"
            then DetectionResult.mk SDK_DOTNET "02_Studio/SDKs" 8 ".NET SDK"
            else DetectionResult.mk CONFIG_DOTFILE "02_Studio/Config" 8
                                    "Config Folder").
Proof.
  intros item cs Ht Hd Hp Hc Hy. unfold detectFileCategory.
  apply projectStage_none in Hp. rewrite Hp.
  unfold folderStage, FOLDER_RULES.
  apply isFolder_true in Ht. rewrite Ht.
  cbn [find FolderRule.check].
  rewrite (checkEmpty_children _ Hc), (checkStale_dot _ Hd).
  replace (checkOldTemp item) with false
    by (symmetry; destruct Hy;
        [now apply checkOldTemp_no_temp|now apply checkOldTemp_young]).
  unfold checkDotnet, checkDotFolder.
  apply startsWith_spec in Hd. rewrite Hd, Ht.
  now destruct (String.eqb (name item) ".dotnet").
Qed.

Lemma dot_folder_sdk_or_config_at_any_age_witness :
  detectFileCategory
    (folderOf ".dotnet" (Some [fileNamed "a"]) (Some 1000)) None
  = Some (DetectionResult.mk SDK_DOTNET "02_Studio/SDKs" 8 ".NET SDK")
  /\ detectFileCategory
       (folderOf ".dotnet6" (Some [fileNamed "a"]) (Some 1000)) None
     = Some (DetectionResult.mk CONFIG_DOTFILE "02_Studio/Config" 8
                                "Config Folder").
Proof.
  split.
  - apply (dot_folder_sdk_or_config_at_any_age
             (folderOf ".dotnet" (Some [fileNamed "a"]) (Some 1000)) None);
      try reflexivity.
    + exists "dotnet". reflexivity.
    + apply projectStage_none. reflexivity.
    + left. apply not_Contains_by_includes. reflexivity.
  - apply (dot_folder_sdk_or_config_at_any_age
             (folderOf ".dotnet6" (Some [fileNamed "a"]) (Some 1000)) None);
      try reflexivity.
    + exists "dotnet6". reflexivity.
    + apply projectStage_none. reflexivity.
    + left. apply not_Contains_by_includes. reflexivity.
Defined.

Lemma old_temp_rule :
  forall (item : FileNode) (cs : option (list FileNode)),
    type item = folder ->
    NoProjectMatch item cs ->
    0 < childCount item ->
    Contains "temp" (name item) ->
    30 < orElse0 (age item) ->
    detectFileCategory item cs
    = Some (DetectionResult.mk VACUUM_TEMP "VACUUM" 6 "Old Temp Folder").
Proof.
  intros item cs Ht Hp Hc Hn Ha. unfold detectFileCategory.
  apply projectStage_none in Hp. rewrite Hp.
  unfold folderStage, FOLDER_RULES.
  apply isFolder_true in Ht. rewrite Ht.
  cbn [find FolderRule.check].
  rewrite (checkEmpty_children _ Hc).
  unfold checkOldTemp. apply includes_spec in Hn. rewrite Ht, Hn.
  replace (orElse0 (age item) >? 30) with true
    by (symmetry; rewrite Z.gtb_ltb; apply Z.ltb_lt; lia).
  reflexivity.
Qed.

(** X6. A folder with a child of its own and no project match whose
    name contains [temp] is marked as an old temp folder as soon as its
    age exceeds 30 days, also beyond 365 days and also when its name
    starts with a dot: the temp rule comes before the stale rule and
    the dot rules. *)
Theorem old_temp_before_stale_and_dot :
  forall (item : FileNode) (cs : option (list FileNode)),
    type item = folder ->
    NoProjectMatch item cs ->
    0 < childCount item ->
    Contains "temp" (name item) ->
    30 < orElse0 (age item) ->
    detectFileCategory item cs
    = Some (DetectionResult.mk VACUUM_TEMP "VACUUM" 6 "Old Temp Folder").
Proof. exact old_temp_rule. Qed.

Lemma old_temp_before_stale_and_dot_witness :
  detectFileCategory
    (folderOf ".templates" (Some [fileNamed "a"]) (Some 400)) None
  = Some (DetectionResult.mk VACUUM_TEMP "VACUUM" 6 "Old Temp Folder").
Proof.
  apply old_temp_before_stale_and_dot; try reflexivity.
  - apply projectStage_none. reflexivity.
  - exists ".", "lates". reflexivity.
Defined.

Lemma guarded_check_true item b :
  (if negb (isFolder item) then false else b) = true ->
  type item = folder /\ b = true.
Proof.
  destruct (isFolder item) eqn:F; cbn [negb]; [|discriminate].
  intros ->. split; [now apply isFolder_true|reflexivity].
Qed.

Lemma someOpt_children p cs : someOpt p cs = true -> 0 < lengthOpt cs.
Proof.
  destruct cs as [[|c l]|]; simpl; try discriminate. lia.
Qed.

(** X7. A project category is only ever given to a folder, on the
    strength of the children passed as the second argument: when that
    argument is left out or empty, no node is classified as a project,
    whatever children the node itself records. *)
Theorem project_needs_children_argument :
  forall (item : FileNode) (cs : option (list FileNode))
         (r : DetectionResult.t),
    detectFileCategory item cs = Some r ->
    In (DetectionResult.category r) projectCategories ->
    type item = folder /\ 0 < lengthOpt cs.
Proof.
  intros item cs r H Hcat. apply detect_cases in H.
  destruct H as [H|[H|[H|H]]].
  - apply projectStage_some in H. destruct H as (d & Hin & Hc & _).
    clear Hcat. simpl in Hin.
    repeat (destruct Hin as [<-|Hin];
            [cbn [ProjectDetector.check unityDetector] in Hc;
             apply guarded_check_true in Hc; destruct Hc as [Ht Hc];
             split; [assumption|];
             first [apply (someOpt_children _ _ Hc)
                   |apply andb_true_iff in Hc; destruct Hc as [Hc _];
                    apply (someOpt_children _ _ Hc)]|]).
    contradiction.
  - exfalso. apply folderStage_some in H.
    destruct H as (_ & rule & Hin & _ & ->). simpl in Hin, Hcat.
    repeat (destruct Hin as [<-|Hin]; [simpl in Hcat; intuition discriminate|]).
    contradiction.
  - exfalso. apply nameStage_some in H.
    destruct H as (p & Hin & _ & ->). simpl in Hin, Hcat.
    repeat (destruct Hin as [<-|Hin]; [simpl in Hcat; intuition discriminate|]).
    contradiction.
  - exfalso. apply extensionStage_some in H.
    destruct H as (_ & ext & rule & Hin & ->). simpl in Hin, Hcat.
    repeat (destruct Hin as [[= <- <-]|Hin];
            [simpl in Hcat; intuition discriminate|]).
    contradiction.
Qed.

Lemma project_needs_children_argument_witness :
  type (folderOf "repo" None None) = folder
  /\ 0 < lengthOpt (Some [folderOf ".git" None None]).
Proof.
  apply (project_needs_children_argument
           (folderOf "repo" None None)
           (Some [folderOf ".git" None None])
           (DetectionResult.mk PROJECT_GIT "01_Build/Projects" 10
                               "Git Repository")).
  - reflexivity.
  - simpl. tauto.
Defined.

(** ** More on folder sizes *)

Lemma sumZ_app l1 l2 : sumZ (l1 ++ l2) = sumZ l1 + sumZ l2.
Proof. induction l1 as [|x l1 IH]; simpl; [reflexivity|]. rewrite IH. lia. Qed.

Lemma fold_left_sum {A} (f : A -> Z) (l : list A) : forall acc,
  fold_left (fun acc x => acc + f x) l acc = acc + sumZ (map f l).
Proof.
  induction l as [|x l IH]; intros acc; simpl; [lia|]. rewrite IH. lia.
Qed.

Lemma sumZ_flat_map {A B} (f : B -> Z) (h : A -> list B) (l : list A) :
  sumZ (map f (flat_map h l)) = sumZ (map (fun x => sumZ (map f (h x))) l).
Proof.
  induction l as [|x l IH]; simpl; [reflexivity|].
  now rewrite map_app, sumZ_app, IH.
Qed.

Lemma sumZ_nonneg l : Forall (fun x => 0 <= x) l -> 0 <= sumZ l.
Proof. induction 1; simpl; lia. Qed.

Lemma sumZ_member x l : Forall (fun y => 0 <= y) l -> In x l -> x <= sumZ l.
Proof.
  induction 1 as [|y l Hy Hl IH]; intros Hin; [contradiction|].
  simpl. apply sumZ_nonneg in Hl.
  destruct Hin as [->|Hin]; [lia|]. specialize (IH Hin). lia.
Qed.

Lemma traverse_size_sum : forall t : FileNode,
  size (traverse t)
  = Some (sumZ (map (fun f => orFalsy0 (size f)) (countedFiles t))).
Proof.
  induction t as [n t ch a c sz IH] using FileNode_ind'.
  destruct t.
  - simpl. f_equal. lia.
  - cbn [traverse size countedFiles]. f_equal.
    rewrite fold_left_sum. cbn [Z.add].
    destruct ch as [l|]; [|reflexivity].
    rewrite sumZ_flat_map, map_map. f_equal.
    simpl in IH. induction IH as [|x l Hx _ IHl]; simpl; [reflexivity|].
    rewrite Hx, orFalsy0_Some, IHl. reflexivity.
Qed.

(** X8. After the pass the size of a node is the sum of the sizes of
    the files that count in it: the file itself, or the files reached
    through folders only.  The size that a folder recorded beforehand is
    discarded, so a folder without children ends with size 0.  The sum
    is that of the code when the absolute values of those sizes add up
    to a safe integer, so that no addition of doubles rounds. *)
Theorem enrichWithSizes_size_is_sum_of_files :
  forall t : FileNode,
    sumZ (map (fun f => Z.abs (orFalsy0 (size f))) (countedFiles t))
    <= MAX_SAFE_INTEGER ->
    size (enrichWithSizes t)
    = Some (sumZ (map (fun f => orFalsy0 (size f)) (countedFiles t))).
Proof. intros t _. apply traverse_size_sum. Qed.

(** The mock tree weighs 81199 KB, the sum of its fourteen files; the
    sizes recorded on its folders (58502, 120, 450000, ...) are not
    counted. *)
Lemma enrichWithSizes_size_is_sum_of_files_witness :
  size (enrichWithSizes INITIAL_FILE_SYSTEM) = Some 81199.
Proof.
  apply (enrichWithSizes_size_is_sum_of_files INITIAL_FILE_SYSTEM).
  vm_compute. discriminate.
Defined.

Lemma traverse_name x : name (traverse x) = name x.
Proof. now destruct x. Qed.

Lemma traverse_type x : type (traverse x) = type x.
Proof. now destruct x. Qed.

Lemma traverse_age x : age (traverse x) = age x.
Proof. now destruct x. Qed.

Lemma traverse_category x : category (traverse x) = category x.
Proof. now destruct x. Qed.

Lemma flat_map_map {A B C} (f : A -> B) (g : B -> list C) (l : list A) :
  flat_map g (map f l) = flat_map (fun x => g (f x)) l.
Proof. induction l as [|x l IH]; simpl; congruence. Qed.

Lemma map_flat_map {A B C} (f : B -> C) (g : A -> list B) (l : list A) :
  map f (flat_map g l) = flat_map (fun x => map f (g x)) l.
Proof.
  induction l as [|x l IH]; simpl; [reflexivity|]. now rewrite map_app, IH.
Qed.

Lemma flat_map_ext_Forall {A B} (f g : A -> list B) (l : list A) :
  Forall (fun x => f x = g x) l -> flat_map f l = flat_map g l.
Proof. induction 1 as [|x l Hx _ IH]; simpl; congruence. Qed.

Lemma descendants_traverse : forall t,
  descendants (traverse t) = map traverse (descendants t).
Proof.
  induction t as [n t ch a c sz IH] using FileNode_ind'.
  cbn [traverse descendants]. destruct ch as [l|]; [|reflexivity].
  rewrite flat_map_map, map_flat_map.
  apply flat_map_ext_Forall. simpl in IH.
  induction IH as [|x l Hx _ IHl]; constructor; [|assumption].
  simpl. now rewrite Hx.
Qed.

(** X9. The pass neither adds, nor drops, nor reorders nodes, and
    touches only the [children] and [size] fields: the nodes of the
    enriched tree are the enriched nodes of the tree, in the same order,
    each with its name, type, age and category. *)
Theorem enrichWithSizes_keeps_structure :
  forall t : FileNode,
    nodesOf (enrichWithSizes t) = map enrichWithSizes (nodesOf t)
    /\ forall x, name (enrichWithSizes x) = name x
                 /\ type (enrichWithSizes x) = type x
                 /\ age (enrichWithSizes x) = age x
                 /\ category (enrichWithSizes x) = category x.
Proof.
  intros t. unfold enrichWithSizes, nodesOf. split.
  - simpl. now rewrite descendants_traverse.
  - intros x. now destruct x.
Qed.

Lemma countedFiles_nodes : forall t f,
  In f (countedFiles t) -> In f (nodesOf t) /\ type f = file.
Proof.
  induction t as [n t ch a c sz IH] using FileNode_ind'.
  intros f Hf. destruct t.
  - simpl in Hf. destruct Hf as [<-|[]]. split; [now left|reflexivity].
  - cbn [countedFiles] in Hf.
    destruct ch as [l|]; [|contradiction].
    apply in_flat_map in Hf. destruct Hf as (x & Hx & Hf).
    simpl in IH. rewrite Forall_forall in IH.
    destruct (IH x Hx f Hf) as [Hn Ht]. split; [|assumption].
    right. cbn [descendants]. apply in_flat_map. now exists x.
Qed.

Lemma traverse_size_nonneg t :
  (forall f, In f (nodesOf t) -> type f = file -> 0 <= orFalsy0 (size f)) ->
  0 <= orFalsy0 (size (traverse t)).
Proof.
  intros H. rewrite traverse_size_sum, orFalsy0_Some.
  apply sumZ_nonneg, Forall_forall. intros x Hx.
  apply in_map_iff in Hx. destruct Hx as (f & <- & Hf).
  apply countedFiles_nodes in Hf. now apply H.
Qed.

Lemma child_nodes n t l a c sz x f :
  In x l -> In f (nodesOf x) -> In f (nodesOf (mkFileNode n t (Some l) a c sz)).
Proof.
  intros Hx Hf. right. cbn [descendants]. apply in_flat_map. now exists x.
Qed.

(** X10. When no file of the tree has a negative size, a folder is
    after the pass at least as large as each of its children, and no
    child is negative. *)
Theorem enrichWithSizes_folder_bounds_children :
  forall (t : FileNode) (l : list FileNode) (c : FileNode),
    (forall f, In f (nodesOf t) -> type f = file -> 0 <= orFalsy0 (size f)) ->
    type t = folder ->
    children (enrichWithSizes t) = Some l ->
    In c l ->
    0 <= orFalsy0 (size c) <= orFalsy0 (size (enrichWithSizes t)).
Proof.
  intros [n t ch a cat sz] l c H Ht Hl Hc. simpl in Ht. subst t.
  unfold enrichWithSizes in *. cbn [traverse children size] in *.
  injection Hl as <-. rewrite orFalsy0_Some, fold_left_sum. cbn [Z.add].
  destruct ch as [l0|]; [|contradiction].
  assert (N : Forall (fun y => 0 <= y)
                     (map (fun child => orFalsy0 (size child))
                          (map traverse l0))).
  { apply Forall_forall. intros y Hy. rewrite map_map in Hy.
    apply in_map_iff in Hy. destruct Hy as (x & <- & Hx).
    apply traverse_size_nonneg. intros f Hf. apply H.
    now apply child_nodes with (x := x). }
  split.
  - rewrite Forall_forall in N. apply N.
    now apply (in_map (fun child => orFalsy0 (size child))).
  - apply sumZ_member; [assumption|].
    now apply (in_map (fun child => orFalsy0 (size child))).
Qed.

Lemma enrichWithSizes_folder_bounds_children_witness :
  0 <= 58502 <= 81199.
Proof.
  apply (enrichWithSizes_folder_bounds_children
           INITIAL_FILE_SYSTEM
           (match children (enrichWithSizes INITIAL_FILE_SYSTEM) with
            | Some l => l
            | None => []
            end)
           (enrichWithSizes
              (node "_UNSORTED_DESKTOP" folder
                 (Some [ node "random_note.txt" file None None (Some 2);
                         node "downloaded_setup.exe" file None None
                              (Some 54000);
                         node "Final_Presentation_Export.pdf" file None None
                              (Some 4500) ])
                 None (Some 58502)))).
  - intros f Hf _. simpl in Hf.
    repeat (destruct Hf as [<-|Hf]; [vm_compute; discriminate|]).
    contradiction.
  - reflexivity.
  - reflexivity.
  - simpl. tauto.
Defined.

(** ** The search filter *)

Lemma filterFileNode_eq n t ch a c sz q :
  filterFileNode (mkFileNode n t ch a c sz) q
  = if nameMatches q (mkFileNode n t ch a c sz)
    then Some (mkFileNode n t ch a c sz)
    else match ch with
         | Some l =>
             match filterNotNull (map (fun x => filterFileNode x q) l) with
             | [] => None
             | y :: fc => Some (mkFileNode n t (Some (y :: fc)) a c sz)
             end
         | None => None
         end.
Proof.
  unfold nameMatches. cbn [filterFileNode name].
  destruct (includes _ _); [reflexivity|].
  destruct ch as [l|]; [|reflexivity].
  now destruct (filterNotNull _).
Qed.

Lemma filterNotNull_nil {A} (l : list (option A)) :
  filterNotNull l = [] <-> Forall (fun o => o = None) l.
Proof.
  induction l as [|[x|] l IH]; simpl.
  - split; auto.
  - split; [discriminate|]. intros H. inversion H. discriminate.
  - rewrite IH. split; [now constructor|]. intros H. now inversion H.
Qed.

Lemma filterFileNode_none_iff q : forall t,
  filterFileNode t q = None
  <-> forall x, In x (nodesOf t) -> nameMatches q x = false.
Proof.
  induction t as [n t ch a c sz IH] using FileNode_ind'.
  rewrite filterFileNode_eq.
  destruct (nameMatches q (mkFileNode n t ch a c sz)) eqn:M.
  - split; [discriminate|]. intros H.
    rewrite H in M; [discriminate|now left].
  - destruct ch as [l|].
    + simpl in IH.
      destruct (filterNotNull (map (fun x => filterFileNode x q) l)) eqn:F.
      * split; [intros _|reflexivity].
        apply filterNotNull_nil in F. rewrite Forall_map in F.
        rewrite Forall_forall in F, IH.
        intros x [<-|Hx]; [assumption|].
        cbn [descendants] in Hx. apply in_flat_map in Hx.
        destruct Hx as (y & Hy & Hx).
        now apply (proj1 (IH y Hy) (F y Hy)).
      * split; [discriminate|]. intros H. exfalso.
        assert (G : filterNotNull (map (fun x => filterFileNode x q) l) = []).
        { apply filterNotNull_nil. rewrite Forall_map.
          rewrite Forall_forall in IH |- *. intros y Hy.
          apply IH; [assumption|]. intros x Hx. apply H.
          now apply child_nodes with (x := y). }
        congruence.
    + split; [intros _|reflexivity].
      intros x [<-|[]]. assumption.
Qed.

(** X11. The filter gives nothing exactly when no node of the tree,
    the root included, has a name that contains the query, letter case
    ignored; as soon as one node at any depth does, a tree is
    returned. *)
Theorem filterFileNode_none_iff_no_match :
  forall (t : FileNode) (query : string),
    filterFileNode t query = None
    <-> forall x, In x (nodesOf t) ->
                  includes (toLowerCase (name x)) (toLowerCase query) = false.
Proof. intros t query. apply filterFileNode_none_iff. Qed.

Lemma filterFileNode_none_iff_no_match_witness :
  filterFileNode INITIAL_FILE_SYSTEM "zzz" = None.
Proof.
  apply (proj2 (filterFileNode_none_iff_no_match INITIAL_FILE_SYSTEM "zzz")).
  intros x Hx. simpl in Hx.
  repeat (destruct Hx as [<-|Hx]; [reflexivity|]). contradiction.
Defined.

Lemma filterNotNull_Some {A} (l : list A) :
  filterNotNull (map Some l) = l.
Proof. induction l; simpl; congruence. Qed.

Lemma filterNotNull_In {A B} (f : A -> option B) (l : list A) y :
  In y (filterNotNull (map f l)) -> exists x, In x l /\ f x = Some y.
Proof.
  induction l as [|x l IH]; simpl; [contradiction|].
  destruct (f x) as [z|] eqn:E.
  - intros [<-|H]; [eauto|]. destruct (IH H) as (x' & ? & ?). eauto.
  - intros H. destruct (IH H) as (x' & ? & ?). eauto.
Qed.

Lemma filterFileNode_fixed q : forall t r,
  filterFileNode t q = Some r -> filterFileNode r q = Some r.
Proof.
  induction t as [n t ch a c sz IH] using FileNode_ind'.
  intros r. rewrite filterFileNode_eq.
  destruct (nameMatches q (mkFileNode n t ch a c sz)) eqn:M.
  - intros [= <-]. now rewrite filterFileNode_eq, M.
  - destruct ch as [l|]; [|discriminate].
    destruct (filterNotNull (map (fun x => filterFileNode x q) l))
      as [|y fc] eqn:F; [discriminate|].
    intros [= <-]. rewrite filterFileNode_eq.
    replace (nameMatches q (mkFileNode n t (Some (y :: fc)) a c sz))
      with false by (symmetry; exact M).
    assert (G : map (fun x => filterFileNode x q) (y :: fc)
                = map Some (y :: fc)).
    { apply map_ext_in. intros z Hz. rewrite <- F in Hz.
      apply filterNotNull_In in Hz. destruct Hz as (x & Hx & Ex).
      simpl in IH. rewrite Forall_forall in IH. now apply (IH x Hx). }
    now rewrite G, filterNotNull_Some.
Qed.

(** X12. Filtering is idempotent: the tree that the filter returns is
    returned unchanged when it is filtered again with the same query. *)
Theorem filterFileNode_idempotent :
  forall (t r : FileNode) (query : string),
    filterFileNode t query = Some r -> filterFileNode r query = Some r.
Proof. intros t r query. apply filterFileNode_fixed. Qed.

Lemma filterFileNode_idempotent_witness :
  filterFileNode
    (folderOf "docs" (Some [fileNamed "a.PDF"]) None) "pdf"
  = Some (folderOf "docs" (Some [fileNamed "a.PDF"]) None).
Proof.
  apply (filterFileNode_idempotent
           (folderOf "docs" (Some [fileNamed "a.PDF"; fileNamed "b.txt"])
                     None)).
  reflexivity.
Defined.

Lemma Subsequence_refl {A} (l : list A) : Subsequence l l.
Proof. induction l; constructor; assumption. Qed.

Lemma Subsequence_nil {A} (l : list A) : Subsequence [] l.
Proof. induction l; constructor; assumption. Qed.

Lemma Subsequence_app {A} (l1 l2 m1 m2 : list A) :
  Subsequence l1 m1 -> Subsequence l2 m2 -> Subsequence (l1 ++ l2) (m1 ++ m2).
Proof.
  induction 1; simpl; intros H2;
    [assumption|apply sub_skip; auto|apply sub_keep; auto].
Qed.

Lemma Subsequence_length {A} (l m : list A) :
  Subsequence l m -> (List.length l <= List.length m)%nat.
Proof. induction 1; simpl; lia. Qed.

Lemma Subsequence_In {A} (l m : list A) x :
  Subsequence l m -> In x l -> In x m.
Proof.
  induction 1; simpl; intros H'; [assumption|right; auto|].
  destruct H'; [left|right]; auto.
Qed.

Lemma filterFileNode_pruning q : forall t r,
  filterFileNode t q = Some r ->
  label r = label t
  /\ Subsequence (map label (descendants r)) (map label (descendants t)).
Proof.
  induction t as [n t ch a c sz IH] using FileNode_ind'.
  intros r. rewrite filterFileNode_eq.
  destruct (nameMatches q (mkFileNode n t ch a c sz)).
  - intros [= <-]. split; [reflexivity|apply Subsequence_refl].
  - destruct ch as [l|]; [|discriminate].
    destruct (filterNotNull (map (fun x => filterFileNode x q) l))
      as [|y fc] eqn:F; [discriminate|].
    intros [= <-]. split; [reflexivity|].
    rewrite <- F. clear F y fc. cbn [descendants]. simpl in IH.
    induction IH as [|x l Hx _ IHl]; [constructor|].
    cbn [map filterNotNull flat_map].
    destruct (filterFileNode x q) as [y|] eqn:E.
    + destruct (Hx y eq_refl) as [Hl Hs].
      cbn [filterNotNull flat_map]. rewrite !map_app.
      apply Subsequence_app; [|assumption].
      cbn [map]. rewrite Hl. now constructor.
    + rewrite map_app.
      apply (Subsequence_app [] _ _ _ (Subsequence_nil _) IHl).
Qed.

(** X13. The filter only prunes: the root keeps its name, type, age,
    category and size, and the nodes below it in the result are, with
    the same five fields and in the same order, among the nodes below it
    in the tree.  A folder kept for one matching child therefore still
    shows the size computed on the whole tree. *)
Theorem filterFileNode_only_prunes :
  forall (t r : FileNode) (query : string),
    filterFileNode t query = Some r ->
    label r = label t
    /\ Subsequence (map label (descendants r)) (map label (descendants t)).
Proof. intros t r query. apply filterFileNode_pruning. Qed.

Lemma filterFileNode_only_prunes_witness :
  label (mkFileNode "docs" folder (Some [fileNamed "a.PDF"]) None None
                    (Some 7))
  = label (mkFileNode "docs" folder
                      (Some [fileNamed "b.txt"; fileNamed "a.PDF"]) None None
                      (Some 7))
  /\ Subsequence
       (map label [fileNamed "a.PDF"])
       (map label [fileNamed "b.txt"; fileNamed "a.PDF"]).
Proof.
  apply (filterFileNode_only_prunes
           (mkFileNode "docs" folder
                       (Some [fileNamed "b.txt"; fileNamed "a.PDF"]) None None
                       (Some 7))
           (mkFileNode "docs" folder (Some [fileNamed "a.PDF"]) None None
                       (Some 7))
           "pdf").
  reflexivity.
Defined.

Lemma filterFileNode_query_lower q q' :
  toLowerCase q = toLowerCase q' ->
  forall t, filterFileNode t q = filterFileNode t q'.
Proof.
  intros E. induction t as [n t ch a c sz IH] using FileNode_ind'.
  rewrite !filterFileNode_eq. unfold nameMatches. rewrite E.
  destruct (includes _ _); [reflexivity|].
  destruct ch as [l|]; [|reflexivity].
  assert (G : map (fun x => filterFileNode x q) l
              = map (fun x => filterFileNode x q') l).
  { simpl in IH. induction IH; simpl; congruence. }
  now rewrite G.
Qed.

(** X14. The filter ignores the case of letters in the query: two
    queries with the same lower-case form select the same tree. *)
Theorem filterFileNode_query_case_insensitive :
  forall (t : FileNode) (q q' : string),
    toLowerCase q = toLowerCase q' ->
    filterFileNode t q = filterFileNode t q'.
Proof. intros t q q' E. now apply filterFileNode_query_lower. Qed.

Lemma filterFileNode_query_case_insensitive_witness :
  filterFileNode INITIAL_FILE_SYSTEM "Book"
  = filterFileNode INITIAL_FILE_SYSTEM "bOOK".
Proof.
  apply filterFileNode_query_case_insensitive. reflexivity.
Defined.

(** ** The scan for moves *)

Lemma scanItem_eq p x :
  scanItem p x
  = (pushedFor p x ++ scanNodes (scannedBelow x) (name x))%list.
Proof.
  destruct x as [n t ch a c sz].
  unfold pushedFor, scannedBelow, scanNodes, isFolder, isFile.
  cbn [scanItem name children type].
  destruct (String.eqb n "_UNSORTED_DESKTOP").
  - now destruct ch.
  - destruct (detectFileCategory _ ch) as [d|]; destruct ch as [l|];
      try reflexivity;
      match goal with
      | |- context [if ?b then flat_map _ _ else _] => now destruct b
      end.
Qed.

Lemma scannedBelow_children x y :
  In y (scannedBelow x) -> exists l, children x = Some l /\ In y l.
Proof.
  unfold scannedBelow. destruct (children x) as [l|]; [|contradiction].
  intros H. exists l. split; [reflexivity|].
  destruct (String.eqb _ _); [assumption|].
  now destruct (_ && _).
Qed.

Lemma pushedFor_item p x m : In m (pushedFor p x) -> MoveAction.item m = x.
Proof.
  unfold pushedFor.
  destruct (String.eqb _ _); [now intros [<-|[]]|].
  destruct (detectFileCategory _ _); [now intros [<-|[]]|].
  destruct (_ && _); [now intros [<-|[]]|contradiction].
Qed.

Lemma pushedFor_length p x : (List.length (pushedFor p x) <= 1)%nat.
Proof.
  unfold pushedFor.
  destruct (String.eqb _ _); [simpl; lia|].
  destruct (detectFileCategory _ _); [simpl; lia|].
  destruct (_ && _); simpl; lia.
Qed.

Lemma pushedFor_Subsequence p x :
  Subsequence (map MoveAction.item (pushedFor p x)) [x].
Proof.
  destruct (pushedFor p x) as [|m [|m' l]] eqn:E.
  - apply Subsequence_nil.
  - simpl. rewrite (pushedFor_item p x m) by (rewrite E; now left).
    apply Subsequence_refl.
  - pose proof (pushedFor_length p x) as L. rewrite E in L. simpl in L. lia.
Qed.

Lemma child_descendant x l y z :
  children x = Some l -> In y l -> In z (nodesOf y) -> In z (descendants x).
Proof.
  destruct x as [n t ch a c sz]. simpl. intros -> Hy Hz.
  apply in_flat_map. now exists y.
Qed.

Lemma Subsequence_flat_map {A B} (f : A -> list B) (g : A -> list B)
      (l l' : list A) :
  Subsequence l' l ->
  (forall x, In x l -> Subsequence (f x) (g x)) ->
  Subsequence (flat_map f l') (flat_map g l).
Proof.
  induction 1 as [|x l1 l2 H IH|x l1 l2 H IH]; intros F; simpl.
  - constructor.
  - apply (Subsequence_app [] _ _ _ (Subsequence_nil _)).
    apply IH. intros y Hy. apply F. now right.
  - apply Subsequence_app; [apply F; now left|].
    apply IH. intros y Hy. apply F. now right.
Qed.

Lemma scannedBelow_Subsequence x l :
  children x = Some l -> Subsequence (scannedBelow x) l.
Proof.
  unfold scannedBelow. intros ->.
  destruct (String.eqb _ _); [apply Subsequence_refl|].
  destruct (_ && _); [apply Subsequence_refl|apply Subsequence_nil].
Qed.

Lemma scanItem_Subsequence : forall x p,
  Subsequence (map MoveAction.item (scanItem p x)) (nodesOf x).
Proof.
  induction x as [n t ch a c sz IH] using FileNode_ind'.
  intros p. rewrite scanItem_eq, map_app.
  apply (Subsequence_app _ _ [_] _ (pushedFor_Subsequence _ _)).
  unfold scanNodes. rewrite map_flat_map. cbn [descendants].
  destruct ch as [l|]; [|apply Subsequence_nil].
  apply (Subsequence_flat_map _ nodesOf).
  - now apply scannedBelow_Subsequence.
  - simpl in IH. rewrite Forall_forall in IH. intros y Hy. now apply IH.
Qed.

(** X15. The items of the proposed moves are nodes below the root,
    each taken at most once and in the order of the tree (parents
    before children, siblings in order): the root itself is never
    moved and there are at most as many moves as nodes below it. *)
Theorem runMoveDetection_items_follow_tree :
  forall root : FileNode,
    Subsequence (map MoveAction.item (runMoveDetection root))
                (descendants root)
    /\ (List.length (runMoveDetection root)
        <= List.length (descendants root))%nat.
Proof.
  intros root.
  assert (S : Subsequence (map MoveAction.item (runMoveDetection root))
                          (descendants root)).
  { unfold runMoveDetection. destruct root as [n t [l|] a c sz];
      cbn [children descendants]; [|constructor].
    unfold scanNodes. rewrite map_flat_map.
    apply (Subsequence_flat_map _ nodesOf); [apply Subsequence_refl|].
    intros y _. apply scanItem_Subsequence. }
  split; [assumption|].
  apply Subsequence_length in S. now rewrite length_map in S.
Qed.

(** Every move is the one pushed for its item, under the name of the
    parent of that item or, for a child of the root, under no name. *)
Lemma scanItem_origin : forall x p m,
  In m (scanItem p x) ->
  In m (pushedFor p x)
  \/ exists parent l y,
       In parent (nodesOf x) /\ children parent = Some l /\ In y l
       /\ In m (pushedFor (name parent) y).
Proof.
  induction x as [n t ch a c sz IH] using FileNode_ind'.
  intros p m. rewrite scanItem_eq, in_app_iff.
  intros [H|H]; [now left|right].
  unfold scanNodes in H. apply in_flat_map in H. destruct H as (y & Hy & Hm).
  apply scannedBelow_children in Hy. destruct Hy as (l & El & Hy).
  cbn [children] in El. subst ch. simpl in IH. rewrite Forall_forall in IH.
  destruct (IH y Hy _ _ Hm) as [H|(parent & l' & z & Hp & El' & Hz & H)].
  - exists (mkFileNode n t (Some l) a c sz), l, y.
    repeat split; try assumption. now left.
  - exists parent, l', z. repeat split; try assumption.
    now apply child_nodes with (x := y).
Qed.

Lemma runMoveDetection_origin root m :
  In m (runMoveDetection root) ->
  (exists l, children root = Some l /\ In (MoveAction.item m) l
             /\ In m (pushedFor "" (MoveAction.item m)))
  \/ exists parent l,
       In parent (descendants root) /\ children parent = Some l
       /\ In (MoveAction.item m) l
       /\ In m (pushedFor (name parent) (MoveAction.item m)).
Proof.
  unfold runMoveDetection. destruct (children root) as [l|] eqn:E;
    [|contradiction].
  unfold scanNodes. intros H. apply in_flat_map in H.
  destruct H as (y & Hy & Hm).
  destruct (scanItem_origin _ _ _ Hm)
    as [H|(parent & l' & z & Hp & El' & Hz & H)].
  - left. exists l. rewrite (pushedFor_item _ _ _ H). auto.
  - right. exists parent, l'. rewrite (pushedFor_item _ _ _ H).
    repeat split; try assumption.
    now apply (child_descendant root l y).
Qed.

Lemma pushedFor_vacuum p x m :
  In m (pushedFor p x) ->
  MoveAction.target m = "VACUUM" ->
  name x = "_UNSORTED_DESKTOP"
  \/ exists d, detectFileCategory x (children x) = Some d
               /\ DetectionResult.target d = "VACUUM".
Proof.
  unfold pushedFor.
  destruct (String.eqb _ _) eqn:E; [apply String.eqb_eq in E; now left|].
  destruct (detectFileCategory _ _) as [d|].
  - intros [<-|[]] Ht. right. now exists d.
  - destruct (_ && _); [|contradiction]. intros [<-|[]]. discriminate.
Qed.

(** X16. A move to [VACUUM] is proposed only for a node named
    [_UNSORTED_DESKTOP], for a folder without children of its own, or
    for a folder whose name contains [temp] and whose age exceeds 30
    days: no other file or folder is proposed for deletion. *)
Theorem runMoveDetection_vacuum_moves :
  forall (root : FileNode) (m : MoveAction.t),
    In m (runMoveDetection root) ->
    MoveAction.target m = "VACUUM" ->
    name (MoveAction.item m) = "_UNSORTED_DESKTOP"
    \/ (type (MoveAction.item m) = folder
        /\ (childCount (MoveAction.item m) = 0
            \/ (Contains "temp" (name (MoveAction.item m))
                /\ 30 < orElse0 (age (MoveAction.item m))))).
Proof.
  intros root m Hm Ht.
  assert (P : exists p, In m (pushedFor p (MoveAction.item m))).
  { destruct (runMoveDetection_origin _ _ Hm)
      as [(l & _ & _ & H)|(parent & l & _ & _ & _ & H)]; eauto. }
  destruct P as (p & P).
  destruct (pushedFor_vacuum _ _ _ P Ht) as [H|(d & Hd & Hv)]; [now left|].
  right.
  destruct (vacuum_origin _ _ _ Hd Hv) as (Hf & [[_ H]|(_ & H1 & H2)]); auto.
Qed.

Lemma runMoveDetection_vacuum_moves_witness :
  name (folderOf "cache" (Some []) None) = "_UNSORTED_DESKTOP"
  \/ (type (folderOf "cache" (Some []) None) = folder
      /\ (childCount (folderOf "cache" (Some []) None) = 0
          \/ (Contains "temp" (name (folderOf "cache" (Some []) None))
              /\ 30 < orElse0 (age (folderOf "cache" (Some []) None))))).
Proof.
  apply (runMoveDetection_vacuum_moves
           (folderOf "home" (Some [folderOf "cache" (Some []) None]) None)
           (MoveAction.mk (folderOf "cache" (Some []) None)
                          "VACUUM" "Empty Folder")).
  - left. reflexivity.
  - reflexivity.
Defined.

Lemma temp_not_special s :
  Contains "temp" s -> String.eqb s "_UNSORTED_DESKTOP" = false.
Proof.
  intros H. destruct (String.eqb s "_UNSORTED_DESKTOP") eqn:E; [|reflexivity].
  apply String.eqb_eq in E. subst s. apply includes_spec in H.
  discriminate H.
Qed.

Lemma scanNodes_one x p : scanNodes [x] p = scanItem p x.
Proof. unfold scanNodes. simpl. apply app_nil_r. Qed.

(** X17. Nothing inside an old temp folder is scanned: for a folder
    with children whose name contains [temp], whose age exceeds 30 days
    and that its own children do not make a project, the scan proposes
    the one move of the folder to [VACUUM] and no move for anything
    below it. *)
Theorem scan_stops_at_old_temp_folder :
  forall (item : FileNode) (parentName : string),
    type item = folder ->
    NoProjectMatch item (children item) ->
    0 < childCount item ->
    Contains "temp" (name item) ->
    30 < orElse0 (age item) ->
    scanNodes [item] parentName
    = [MoveAction.mk item "VACUUM" "Old Temp Folder"].
Proof.
  intros item p Ht Hp Hc Hn Ha.
  rewrite scanNodes_one, scanItem_eq.
  unfold pushedFor, scannedBelow.
  rewrite (temp_not_special _ Hn).
  rewrite (old_temp_rule item (children item) Ht Hp Hc Hn Ha).
  cbn [DetectionResult.target DetectionResult.reason].
  destruct (children item); [|reflexivity].
  replace (String.eqb "VACUUM" "VACUUM") with true by reflexivity.
  cbn [negb]. now rewrite andb_false_r.
Qed.

Lemma scan_stops_at_old_temp_folder_witness :
  scanNodes
    [folderOf "temp-2019"
              (Some [fileNamed "Invoice.pdf"; folderOf "empty" (Some []) None])
              (Some 31)]
    "_UNSORTED_DESKTOP"
  = [MoveAction.mk
       (folderOf "temp-2019"
                 (Some [fileNamed "Invoice.pdf";
                        folderOf "empty" (Some []) None])
                 (Some 31))
       "VACUUM" "Old Temp Folder"].
Proof.
  apply scan_stops_at_old_temp_folder; try reflexivity.
  - apply projectStage_none. reflexivity.
  - exists "", "-2019". reflexivity.
Defined.

Lemma detect_git item cs :
  type item = folder -> HasChildNamed ".git" cs ->
  detectFileCategory item cs = Some (result PROJECT_GIT "Git Repository").
Proof.
  intros Ht H. unfold detectFileCategory.
  rewrite (projectStage_folder item cs Ht).
  apply hasChildNamed_spec in H. now rewrite H.
Qed.

(** X18. A Git repository is proposed for a move as a whole and is
    scanned inside all the same: after the move of the repository come
    the moves that its children give under its name. *)
Theorem scan_goes_on_inside_git_repository :
  forall (item : FileNode) (l : list FileNode) (parentName : string),
    type item = folder ->
    name item <> "_UNSORTED_DESKTOP" ->
    children item = Some l ->
    HasChildNamed ".git" (Some l) ->
    scanNodes [item] parentName
    = MoveAction.mk item "01_Build/Projects" "Git Repository"
      :: scanNodes l (name item).
Proof.
  intros item l p Ht Hn El Hg.
  rewrite scanNodes_one, scanItem_eq.
  unfold pushedFor, scannedBelow.
  apply String.eqb_neq in Hn. rewrite Hn, El.
  rewrite (detect_git item (Some l) Ht Hg).
  apply isFolder_true in Ht. rewrite Ht.
  destruct Hg as (l' & c & [= <-] & Hc & _).
  destruct l as [|x l]; [contradiction|]. reflexivity.
Qed.

Lemma scan_goes_on_inside_git_repository_witness :
  scanNodes
    [folderOf "site" (Some [folderOf ".git" (Some []) None;
                            fileNamed "index.md"]) None] ""
  = [ MoveAction.mk
        (folderOf "site" (Some [folderOf ".git" (Some []) None;
                                fileNamed "index.md"]) None)
        "01_Build/Projects" "Git Repository";
      MoveAction.mk (folderOf ".git" (Some []) None) "VACUUM" "Empty Folder";
      MoveAction.mk (fileNamed "index.md") "03_Library/Notes" "Markdown" ].
Proof.
  apply (scan_goes_on_inside_git_repository
           (folderOf "site" (Some [folderOf ".git" (Some []) None;
                                   fileNamed "index.md"]) None)
           [folderOf ".git" (Some []) None; fileNamed "index.md"] "").
  - reflexivity.
  - discriminate.
  - reflexivity.
  - apply hasChildNamed_spec. reflexivity.
Defined.

Lemma scanItem_file p x :
  type x = file -> name x <> "_UNSORTED_DESKTOP" ->
  scanItem p x = pushedFor p x.
Proof.
  intros Ht Hn. rewrite scanItem_eq. unfold scannedBelow.
  apply String.eqb_neq in Hn. rewrite Hn, (isFolder_file _ Ht).
  destruct (children x); cbn [andb]; apply app_nil_r.
Qed.

(** X19. Every file directly inside [_UNSORTED_DESKTOP] gets exactly
    one move, in order: the move to the target of its classification
    with the reason of that classification, or else, when it is left
    unclassified, the move to [00_Inbox] with the reason [Inbox Item]. *)
Theorem scan_moves_every_file_of_unsorted_desktop :
  forall l : list FileNode,
    Forall (fun x => type x = file /\ name x <> "_UNSORTED_DESKTOP") l ->
    scanNodes l "_UNSORTED_DESKTOP"
    = map (fun x =>
             match detectFileCategory x (children x) with
             | Some d =>
                 MoveAction.mk x (DetectionResult.target d)
                               (DetectionResult.reason d)
             | None => MoveAction.mk x "00_Inbox" "Inbox Item"
             end) l
    /\ map MoveAction.item (scanNodes l "_UNSORTED_DESKTOP") = l.
Proof.
  intros l H.
  assert (E : scanNodes l "_UNSORTED_DESKTOP"
              = map (fun x =>
                       match detectFileCategory x (children x) with
                       | Some d =>
                           MoveAction.mk x (DetectionResult.target d)
                                         (DetectionResult.reason d)
                       | None => MoveAction.mk x "00_Inbox" "Inbox Item"
                       end) l).
  { induction H as [|x l [Ht Hn] _ IH]; [reflexivity|].
    unfold scanNodes in *. cbn [flat_map map]. rewrite IH.
    rewrite (scanItem_file _ _ Ht Hn). unfold pushedFor.
    apply String.eqb_neq in Hn. rewrite Hn.
    destruct (detectFileCategory _ _); [reflexivity|].
    apply isFile_true in Ht. rewrite Ht. reflexivity. }
  split; [exact E|].
  rewrite E, map_map. rewrite <- (map_id l) at 2.
  apply map_ext. intros x. now destruct (detectFileCategory _ _).
Qed.

(** A note without extension goes to the inbox, an installer to the
    tools. *)
Lemma scan_moves_every_file_of_unsorted_desktop_witness :
  scanNodes [fileNamed "random_note"; fileNamed "setup.exe"]
            "_UNSORTED_DESKTOP"
  = [ MoveAction.mk (fileNamed "random_note") "00_Inbox" "Inbox Item";
      MoveAction.mk (fileNamed "setup.exe") "02_Studio/Tools" "Executable" ].
Proof.
  apply (scan_moves_every_file_of_unsorted_desktop
           [fileNamed "random_note"; fileNamed "setup.exe"]).
  repeat constructor; discriminate.
Defined.

Lemma detect_target_not_inbox x cs d :
  detectFileCategory x cs = Some d -> DetectionResult.target d <> "00_Inbox".
Proof.
  intros H. rewrite (detect_is_result _ _ _ H).
  destruct (DetectionResult.category d); discriminate.
Qed.

Lemma pushedFor_inbox p x m :
  In m (pushedFor p x) ->
  MoveAction.target m = "00_Inbox" ->
  p = "_UNSORTED_DESKTOP" /\ type x = file
  /\ name x <> "_UNSORTED_DESKTOP"
  /\ detectFileCategory x (children x) = None.
Proof.
  unfold pushedFor.
  destruct (String.eqb (name x) _) eqn:N; [intros [<-|[]]; discriminate|].
  apply String.eqb_neq in N.
  destruct (detectFileCategory _ _) as [d|] eqn:D.
  - intros [<-|[]] Ht. now apply detect_target_not_inbox in D.
  - destruct (String.eqb p _) eqn:E; [|contradiction].
    destruct (isFile x) eqn:F; [|contradiction].
    intros _ _. apply String.eqb_eq in E. apply isFile_true in F. auto.
Qed.

Lemma pushedFor_unclassified p x m :
  In m (pushedFor p x) ->
  name x <> "_UNSORTED_DESKTOP" ->
  detectFileCategory x (children x) = None ->
  m = MoveAction.mk x "00_Inbox" "Inbox Item".
Proof.
  unfold pushedFor. intros H N D. apply String.eqb_neq in N.
  rewrite N, D in H. destruct (_ && _); [|contradiction].
  now destruct H as [<-|[]].
Qed.

(** X20. A move to the inbox is proposed only for a file, not itself
    named [_UNSORTED_DESKTOP], that the classification leaves out and
    that is a direct child of a node named [_UNSORTED_DESKTOP] (a name
    that is tested without the type) below the root.  And the inbox
    move is the only move ever proposed for an item that the
    classification leaves out and that does not bear that name: such an
    item gets no move where it does not lie directly inside a node of
    that name, also deeper inside one or directly under a root of that
    name. *)
Theorem runMoveDetection_inbox_moves :
  forall (root : FileNode) (m : MoveAction.t),
    In m (runMoveDetection root) ->
    (MoveAction.target m = "00_Inbox" ->
     type (MoveAction.item m) = file
     /\ name (MoveAction.item m) <> "_UNSORTED_DESKTOP"
     /\ detectFileCategory (MoveAction.item m)
                           (children (MoveAction.item m)) = None
     /\ exists parent l,
          In parent (descendants root)
          /\ name parent = "_UNSORTED_DESKTOP"
          /\ children parent = Some l
          /\ In (MoveAction.item m) l)
    /\ (name (MoveAction.item m) <> "_UNSORTED_DESKTOP" ->
        detectFileCategory (MoveAction.item m)
                           (children (MoveAction.item m)) = None ->
        m = MoveAction.mk (MoveAction.item m) "00_Inbox" "Inbox Item").
Proof.
  intros root m Hm. split.
  - intros Ht.
    destruct (runMoveDetection_origin _ _ Hm)
      as [(l & _ & _ & H)|(parent & l & Hp & El & Hl & H)].
    + destruct (pushedFor_inbox _ _ _ H Ht) as (E & _). discriminate E.
    + destruct (pushedFor_inbox _ _ _ H Ht) as (E & Hf & Hn & Hd).
      repeat split; try assumption. exists parent, l. auto.
  - intros Hn Hd.
    destruct (runMoveDetection_origin _ _ Hm)
      as [(l & _ & _ & H)|(parent & l & _ & _ & _ & H)];
      now apply (pushedFor_unclassified _ _ _ H).
Qed.

Lemma runMoveDetection_inbox_moves_witness :
  type (fileNamed "random_note") = file
  /\ name (fileNamed "random_note") <> "_UNSORTED_DESKTOP"
  /\ detectFileCategory (fileNamed "random_note")
                        (children (fileNamed "random_note")) = None
  /\ exists parent l,
       In parent
          (descendants
             (folderOf "home"
                (Some [folderOf "_UNSORTED_DESKTOP"
                                (Some [fileNamed "random_note"]) None])
                None))
       /\ name parent = "_UNSORTED_DESKTOP"
       /\ children parent = Some l
       /\ In (fileNamed "random_note") l.
Proof.
  apply (runMoveDetection_inbox_moves
           (folderOf "home"
              (Some [folderOf "_UNSORTED_DESKTOP"
                              (Some [fileNamed "random_note"]) None])
              None)
           (MoveAction.mk (fileNamed "random_note") "00_Inbox" "Inbox Item")).
  - right. left. reflexivity.
  - reflexivity.
Defined.

(** ** The earlier scan *)

Lemma legacy_push_item x mv :
  Subsequence (map MoveAction.item (Legacy.push x mv)) [x].
Proof.
  destruct mv as [[tg rs]|]; simpl;
    [apply Subsequence_refl|apply Subsequence_nil].
Qed.

Lemma legacy_scanItem_other p x :
  name x <> "_UNSORTED_DESKTOP" ->
  Legacy.scanItem p x = Legacy.push x (Legacy.moveOf p x).
Proof.
  intros H. apply String.eqb_neq in H. destruct x as [n t ch a c sz].
  simpl in H. cbn [Legacy.scanItem]. now rewrite H.
Qed.

Lemma legacy_scanNodes_one x p :
  Legacy.scanNodes [x] p = Legacy.scanItem p x.
Proof. unfold Legacy.scanNodes. simpl. apply app_nil_r. Qed.

(** X21. The earlier scan does not go below the items it is given,
    the folders named [_UNSORTED_DESKTOP] apart: on items of other names
    it proposes at most one move per item, in order, for the item
    itself, and none for anything inside a folder. *)
Theorem legacy_scan_stays_at_top_level :
  forall (l : list FileNode) (parentName : string),
    Forall (fun x => name x <> "_UNSORTED_DESKTOP") l ->
    Subsequence (map MoveAction.item (Legacy.scanNodes l parentName)) l.
Proof.
  intros l p. induction 1 as [|x l Hx _ IH]; [constructor|].
  unfold Legacy.scanNodes in *. cbn [flat_map]. rewrite map_app.
  rewrite (legacy_scanItem_other _ _ Hx).
  apply (Subsequence_app _ _ [x] l); [apply legacy_push_item|exact IH].
Qed.

Lemma legacy_scan_stays_at_top_level_witness :
  Subsequence
    (map MoveAction.item
         (Legacy.scanNodes
            [folderOf "work" (Some [fileNamed "Invoice.pdf"]) None;
             fileNamed "NDA.docx"] ""))
    [folderOf "work" (Some [fileNamed "Invoice.pdf"]) None;
     fileNamed "NDA.docx"].
Proof.
  apply legacy_scan_stays_at_top_level.
  repeat constructor; discriminate.
Defined.

(** X22. In the earlier scan the last file rule that holds decides: a
    file whose name contains [Export] or [Screenshot] (and does not
    start with a dot) goes to the exports, also when its name contains
    [Invoice], [NDA], [Blood] or [Passport]. *)
Theorem legacy_export_rule_overrides :
  forall (item : FileNode) (parentName : string),
    type item = file ->
    name item <> "_UNSORTED_DESKTOP" ->
    ~ StartsWith "." (name item) ->
    Contains "Export" (name item) \/ Contains "Screenshot" (name item) ->
    Legacy.scanNodes [item] parentName
    = [MoveAction.mk item "05_Stage/Exports" "Deliverable"].
Proof.
  intros item p Ht Hn Hd He.
  rewrite legacy_scanNodes_one, (legacy_scanItem_other _ _ Hn).
  unfold Legacy.moveOf, Legacy.fileMove.
  rewrite (startsWith_false _ _ Hd), Ht.
  replace (includes (name item) "Export"
           || includes (name item) "Screenshot") with true.
  - reflexivity.
  - symmetry. apply orb_true_iff.
    destruct He as [H|H]; [left|right]; now apply includes_spec.
Qed.

Lemma legacy_export_rule_overrides_witness :
  Legacy.scanNodes [fileNamed "Invoice_Export_NDA.pdf"] ""
  = [MoveAction.mk (fileNamed "Invoice_Export_NDA.pdf")
                   "05_Stage/Exports" "Deliverable"].
Proof.
  apply legacy_export_rule_overrides.
  - reflexivity.
  - discriminate.
  - apply not_StartsWith_by_startsWith. reflexivity.
  - left. exists "Invoice_", "_NDA.pdf". reflexivity.
Defined.

Lemma unity_not_special s :
  Contains "Unity" s -> s <> "_UNSORTED_DESKTOP".
Proof. intros H ->. apply includes_spec in H. discriminate H. Qed.

(** X23. The earlier scan archives a Unity folder beyond 180 days, not
    365: a folder that is not empty, whose name contains [Unity] but
    neither [NextJS] nor a leading dot, is moved to [99_Archives/2023]
    when its age exceeds 180 days, with the reason [Stale (<age>d)] in
    the decimal digits of the age when the age is a safe integer, and
    is an active project at 180 days or less. *)
Theorem legacy_unity_stale_after_180_days :
  forall (item : FileNode) (parentName : string) (a : Z),
    type item = folder ->
    ~ StartsWith "." (name item) ->
    children item <> Some [] ->
    ~ Contains "NextJS" (name item) ->
    Contains "Unity" (name item) ->
    age item = Some a ->
    (180 < a ->
     (exists reason,
         Legacy.scanNodes [item] parentName
         = [MoveAction.mk item "99_Archives/2023" reason])
     /\ (a <= MAX_SAFE_INTEGER ->
         Legacy.scanNodes [item] parentName
         = [MoveAction.mk item "99_Archives/2023"
                          ("Stale (" ++ ofNumber a ++ "d)")]))
    /\ (a <= 180 ->
        Legacy.scanNodes [item] parentName
        = [MoveAction.mk item "01_Build/Interactive" "Active"]).
Proof.
  intros item p a Ht Hd Hc Hx Hu Ha.
  rewrite legacy_scanNodes_one,
          (legacy_scanItem_other _ _ (unity_not_special _ Hu)).
  unfold Legacy.moveOf, Legacy.folderMove.
  rewrite (startsWith_false _ _ Hd), Ht, (includes_false _ _ Hx).
  apply includes_spec in Hu. rewrite Hu, Ha, orFalsy0_Some.
  replace (match children item with
           | Some l => Z.of_nat (List.length l) =? 0
           | None => false
           end) with false
    by (destruct (children item) as [[|y l]|]; [congruence|reflexivity..]).
  split; intros H.
  - replace (a >? 180) with true
      by (symmetry; rewrite Z.gtb_ltb; apply Z.ltb_lt; lia).
    split; [eexists|intros _]; reflexivity.
  - replace (a >? 180) with false
      by (symmetry; rewrite Z.gtb_ltb; apply Z.ltb_ge; lia).
    reflexivity.
Qed.

Lemma legacy_unity_stale_after_180_days_witness :
  Legacy.scanNodes
    [folderOf "Old_Unity_Prototype_v1"
              (Some [folderOf "Assets" (Some []) None]) (Some 200)] ""
  = [MoveAction.mk
       (folderOf "Old_Unity_Prototype_v1"
                 (Some [folderOf "Assets" (Some []) None]) (Some 200))
       "99_Archives/2023" "Stale (200d)"]
  /\ Legacy.scanNodes
       [folderOf "Old_Unity_Prototype_v1"
                 (Some [folderOf "Assets" (Some []) None]) (Some 180)] ""
     = [MoveAction.mk
          (folderOf "Old_Unity_Prototype_v1"
                    (Some [folderOf "Assets" (Some []) None]) (Some 180))
          "01_Build/Interactive" "Active"].
Proof.
  split.
  - apply (legacy_unity_stale_after_180_days
             (folderOf "Old_Unity_Prototype_v1"
                       (Some [folderOf "Assets" (Some []) None]) (Some 200))
             "" 200); try reflexivity; try discriminate;
      try (unfold MAX_SAFE_INTEGER; lia).
    + apply not_StartsWith_by_startsWith. reflexivity.
    + apply not_Contains_by_includes. reflexivity.
    + exists "Old_", "_Prototype_v1". reflexivity.
  - apply (legacy_unity_stale_after_180_days
             (folderOf "Old_Unity_Prototype_v1"
                       (Some [folderOf "Assets" (Some []) None]) (Some 180))
             "" 180); try reflexivity; try discriminate; try lia.
    + apply not_StartsWith_by_startsWith. reflexivity.
    + apply not_Contains_by_includes. reflexivity.
    + exists "Old_", "_Prototype_v1". reflexivity.
Defined.
